(** * Rackbeat product-unit export: a shallow embedding of
      [fetch_product_units.py] and the properties of its specification.

    The script reads product numbers from a CSV file, asks the Rackbeat API
    for the units of every product and writes them to a semicolon-separated
    CSV file.  Each Python function is embedded under its own name.  What the
    script takes from its surroundings is a variable of a section:
    [csv.Sniffer().sniff], [str()] of a value that is neither a string nor
    [None], [urlopen] together with the decoding of the body, and the
    process environment.

    Text.  A Python [str] is embedded as a [string]; a character stands for
    the code point of the same number, so the model covers text whose code
    points are below 256.  [isspace] and [lower] are Python's on that range.
    Python dictionaries are [gmap]s. *)

From Stdlib Require Import ZArith NArith String Ascii List Bool Lia.
From Stdlib Require Import Numbers.DecimalString.
From stdpp Require Import gmap strings list fin_maps.
Import ListNotations.

#[local] Set Warnings "-register-all".
#[local] Open Scope string_scope.

(** ** Python text primitives *)

Module Text.

(** [str.isspace] on one character: the code points U+0009..U+000D,
    U+001C..U+0020, U+0085 and U+00A0. *)
Definition isspace (c : ascii) : bool :=
  let n := N_of_ascii c in
  ((9 <=? n) && (n <=? 13) || (28 <=? n) && (n <=? 32)
   || (n =? 133) || (n =? 160))%N.

(** [str.lower] on one character: A..Z, and U+00C0..U+00DE without the
    multiplication sign U+00D7, move up by 32. *)
Definition lower_char (c : ascii) : ascii :=
  let n := N_of_ascii c in
  if ((65 <=? n) && (n <=? 90)
      || (192 <=? n) && (n <=? 222) && negb (n =? 215))%N
  then ascii_of_N (n + 32) else c.

Fixpoint lower (s : string) : string :=
  match s with
  | EmptyString => EmptyString
  | String c s' => String (lower_char c) (lower s')
  end.

Fixpoint lstrip_by (p : ascii -> bool) (s : string) : string :=
  match s with
  | EmptyString => EmptyString
  | String c s' => if p c then lstrip_by p s' else s
  end.

Fixpoint rstrip_by (p : ascii -> bool) (s : string) : string :=
  match s with
  | EmptyString => EmptyString
  | String c s' =>
      match rstrip_by p s' with
      | EmptyString => if p c then EmptyString else String c EmptyString
      | r => String c r
      end
  end.

Definition strip_by (p : ascii -> bool) (s : string) : string :=
  rstrip_by p (lstrip_by p s).

(** [s.strip()] *)
Definition strip (s : string) : string := strip_by isspace s.

Fixpoint mem_char (c : ascii) (chars : string) : bool :=
  match chars with
  | EmptyString => false
  | String d chars' => Ascii.eqb c d || mem_char c chars'
  end.

(** [s.strip(chars)] *)
Definition strip_chars (chars : string) (s : string) : string :=
  strip_by (fun c => mem_char c chars) s.

(** [s.startswith(p)] *)
Definition startswith (s p : string) : bool := String.prefix p s.

(** Python truth value of a string. *)
Definition nonempty (s : string) : bool :=
  match s with EmptyString => false | _ => true end.

(** [sep.join(l)] *)
Fixpoint join (sep : string) (l : list string) : string :=
  match l with
  | [] => ""
  | [x] => x
  | x :: l' => x ++ sep ++ join sep l'
  end.

(** [str(n)] for a length. *)
Definition str_of_nat (n : nat) : string :=
  NilZero.string_of_uint (Nat.to_uint n).

(** [str(z)] for an integer. *)
Definition str_of_Z (z : Z) : string :=
  NilZero.string_of_int (Z.to_int z).

(** [s[:n]] *)
Definition take (n : nat) (s : string) : string := String.substring 0 n s.

(** The lines an open text file yields with [newline=""]: a line ends at
    ["\n"], ["\r"] or ["\r\n"], and keeps its ending. *)
Fixpoint lines_from (cur : string) (s : string) : list string :=
  match s with
  | EmptyString => if nonempty cur then [cur] else []
  | String c s' =>
      if Ascii.eqb c "010" then (cur ++ String c "") :: lines_from "" s'
      else if Ascii.eqb c "013" then
        match s' with
        | String c' s'' =>
            if Ascii.eqb c' "010"
            then (cur ++ String c (String c' "")) :: lines_from "" s''
            else (cur ++ String c "") :: lines_from "" s'
        | EmptyString => [cur ++ String c ""]
        end
      else lines_from (cur ++ String c "") s'
  end.

Definition file_lines (text : string) : list string := lines_from "" text.

(** [repr(s)] of a string.  The quotes are single ones, unless the string
    holds a single quote and no double one; the backslash and the quote in
    use are escaped, tab, line feed and carriage return are written [\t],
    [\n] and [\r], and a character that is not printable is written
    [\xhh]. *)
Definition single_quote : ascii := "039".
Definition double_quote : ascii := "034".
Definition backslash : ascii := "092".

Definition printable (c : ascii) : bool :=
  let n := N_of_ascii c in
  ((32 <=? n) && (n <? 127) || (161 <=? n) && negb (n =? 173))%N.

Definition hex_lower (n : N) : ascii :=
  if (n <? 10)%N then ascii_of_N (48 + n) else ascii_of_N (87 + n).

Definition repr_char (quote c : ascii) : string :=
  if Ascii.eqb c quote || Ascii.eqb c backslash
  then String backslash (String c "")
  else if Ascii.eqb c "009" then String backslash "t"
  else if Ascii.eqb c "010" then String backslash "n"
  else if Ascii.eqb c "013" then String backslash "r"
  else if printable c then String c ""
  else String backslash
         (String "x" (String (hex_lower (N_of_ascii c / 16))
                        (String (hex_lower (N_of_ascii c mod 16)) ""))).

Fixpoint repr_chars (quote : ascii) (s : string) : string :=
  match s with
  | EmptyString => ""
  | String c s' => repr_char quote c ++ repr_chars quote s'
  end.

Definition repr (s : string) : string :=
  let quote :=
    if mem_char single_quote s && negb (mem_char double_quote s)
    then double_quote else single_quote in
  String quote (repr_chars quote s ++ String quote "").

End Text.

(** ** Python values, as [json.loads] builds them *)

Inductive pyval : Type :=
| PNone
| PBool (b : bool)
| PInt (z : Z)
| PFloat (bits : Z)   (* a binary64, by its bit pattern *)
| PStr (s : string)
| PList (l : list pyval)
| PDict (d : gmap string pyval).

(** [type(v).__name__] *)
Definition type_name (v : pyval) : string :=
  match v with
  | PNone => "NoneType"
  | PBool _ => "bool"
  | PInt _ => "int"
  | PFloat _ => "float"
  | PStr _ => "str"
  | PList _ => "list"
  | PDict _ => "dict"
  end.

(** [isinstance(v, dict)] *)
Definition is_dict (v : pyval) : bool :=
  match v with PDict _ => true | _ => false end.

(** ** [parse_units_payload] *)

Definition wrapper_keys : list string :=
  ["item_units"; "data"; "units"; "results"; "items"].

(** The loop over the wrapper keys: [payload.get(key)] is a list, or the
    next key is tried. *)
Fixpoint first_list_under (keys : list string) (d : gmap string pyval)
  : option (list pyval) :=
  match keys with
  | [] => None
  | key :: keys' =>
      match d !! key with
      | Some (PList value) => Some value
      | _ => first_list_under keys' d
      end
  end.

Definition parse_units_payload (payload : pyval) : list pyval :=
  match payload with
  | PList l => List.filter is_dict l
  | PDict d =>
      match first_list_under wrapper_keys d with
      | Some value => List.filter is_dict value
      | None => []
      end
  | _ => []
  end.

(** ** Exceptions *)

(** The exceptions that are instances of [Exception].  A
    [KeyboardInterrupt] or another exception outside this class, which no
    handler of the script catches, is not modelled. *)

Inductive exn : Type :=
| FileNotFoundError (msg : string)
| ValueError (msg : string)
| csv_Error (msg : string)
| RuntimeError (msg : string)
| AttributeError (msg : string)
| OtherError (cls msg : string).  (* a class outside the ones above *)

(** [str(exc)] *)
Definition exn_str (e : exn) : string :=
  match e with
  | FileNotFoundError msg | ValueError msg | csv_Error msg
  | RuntimeError msg | AttributeError msg | OtherError _ msg => msg
  end.

Inductive result (A : Type) : Type :=
| Ok (a : A)
| Raise (e : exn).
Arguments Ok {A} a.
Arguments Raise {A} e.

(** What a Python iterator does when it is run to its end: it yields
    values, then stops or raises. *)
Inductive iterator (A : Type) : Type :=
| Stop
| Yield (a : A) (rest : iterator A)
| Fail (e : exn).
Arguments Stop {A}.
Arguments Yield {A} a rest.
Arguments Fail {A} e.

(** ** The [csv] module: reader *)

Module Csv.

(** The parser of [_csv.c], as of CPython 3.11: a NUL in a line is a
    character like another.  The dialect is [excel] with the delimiter
    replaced: quote character U+0022, [doublequote], no escape character,
    no [skipinitialspace], not [strict], [QUOTE_MINIMAL], line terminator
    CR LF.  Without an escape character the parser never enters the states
    that follow one, so they are left out. *)
Definition quotechar : ascii := "034".
Definition CR : ascii := "013".
Definition LF : ascii := "010".
Definition field_limit : N := 131072.

Inductive parser_state : Type :=
| START_RECORD | START_FIELD | IN_FIELD | IN_QUOTED_FIELD
| QUOTE_IN_QUOTED_FIELD | EAT_CRNL.

Definition parser_state_eqb (a b : parser_state) : bool :=
  match a, b with
  | START_RECORD, START_RECORD | START_FIELD, START_FIELD
  | IN_FIELD, IN_FIELD | IN_QUOTED_FIELD, IN_QUOTED_FIELD
  | QUOTE_IN_QUOTED_FIELD, QUOTE_IN_QUOTED_FIELD | EAT_CRNL, EAT_CRNL => true
  | _, _ => false
  end.

(** The reader object: the parser state, the fields of the record so far,
    and the field being read with its length. *)
Record reader : Type := {
  state : parser_state;
  fields : list string;
  field : string;
  field_len : N
}.

Definition parse_reset : reader :=
  {| state := START_RECORD; fields := []; field := ""; field_len := 0 |}.

Definition set_state (s : parser_state) (r : reader) : reader :=
  {| state := s; fields := fields r; field := field r;
     field_len := field_len r |}.

Definition parse_save_field (r : reader) : reader :=
  {| state := state r; fields := fields r ++ [field r]; field := "";
     field_len := 0 |}.

Definition parse_add_char (c : ascii) (r : reader) : result reader :=
  if (field_limit <=? field_len r)%N
  then Raise (csv_Error "field larger than field limit (131072)")
  else Ok {| state := state r; fields := fields r;
             field := field r ++ String c ""; field_len := field_len r + 1 |}.

(** What the parser is fed: a character of the line, or the end-of-line
    mark that follows every line. *)
Inductive input : Type := Ch (c : ascii) | EOL.

Definition is_newline (i : input) : bool :=
  match i with Ch c => Ascii.eqb c LF || Ascii.eqb c CR | EOL => false end.

Definition is_char (i : input) (d : ascii) : bool :=
  match i with Ch c => Ascii.eqb c d | EOL => false end.

Definition after_line_end (i : input) : parser_state :=
  match i with EOL => START_RECORD | Ch _ => EAT_CRNL end.

Definition with_state (s : parser_state) (x : result reader) : result reader :=
  match x with Ok r => Ok (set_state s r) | Raise e => Raise e end.

Definition start_field (delimiter : ascii) (i : input) (r : reader)
  : result reader :=
  match i with
  | EOL => Ok (set_state START_RECORD (parse_save_field r))
  | Ch c =>
      if is_newline i then Ok (set_state EAT_CRNL (parse_save_field r))
      else if Ascii.eqb c quotechar then Ok (set_state IN_QUOTED_FIELD r)
      else if Ascii.eqb c delimiter then Ok (parse_save_field r)
      else with_state IN_FIELD (parse_add_char c r)
  end.

Definition parse_process_char (delimiter : ascii) (i : input) (r : reader)
  : result reader :=
  match state r with
  | START_RECORD =>
      match i with
      | EOL => Ok r
      | Ch _ =>
          if is_newline i then Ok (set_state EAT_CRNL r)
          else start_field delimiter i (set_state START_FIELD r)
      end
  | START_FIELD => start_field delimiter i r
  | IN_FIELD =>
      match i with
      | EOL => Ok (set_state START_RECORD (parse_save_field r))
      | Ch c =>
          if is_newline i then Ok (set_state EAT_CRNL (parse_save_field r))
          else if Ascii.eqb c delimiter
          then Ok (set_state START_FIELD (parse_save_field r))
          else parse_add_char c r
      end
  | IN_QUOTED_FIELD =>
      match i with
      | EOL => Ok r
      | Ch c =>
          if Ascii.eqb c quotechar then Ok (set_state QUOTE_IN_QUOTED_FIELD r)
          else parse_add_char c r
      end
  | QUOTE_IN_QUOTED_FIELD =>
      match i with
      | EOL => Ok (set_state START_RECORD (parse_save_field r))
      | Ch c =>
          if Ascii.eqb c quotechar
          then with_state IN_QUOTED_FIELD (parse_add_char c r)
          else if Ascii.eqb c delimiter
          then Ok (set_state START_FIELD (parse_save_field r))
          else if is_newline i
          then Ok (set_state EAT_CRNL (parse_save_field r))
          else with_state IN_FIELD (parse_add_char c r)
      end
  | EAT_CRNL =>
      match i with
      | EOL => Ok (set_state START_RECORD r)
      | Ch _ =>
          if is_newline i then Ok r
          else Raise (csv_Error
                 "new-line character seen in unquoted field - do you need to open the file with newline=''?")
      end
  end.

(** The characters of one line, then the end-of-line mark. *)
Fixpoint feed_line (delimiter : ascii) (line : string) (r : reader)
  : result reader :=
  match line with
  | EmptyString => parse_process_char delimiter EOL r
  | String c line' =>
      match parse_process_char delimiter (Ch c) r with
      | Ok r' => feed_line delimiter line' r'
      | Raise e => Raise e
      end
  end.

(** What iterating a reader yields: records, until the input ends
    ([StopIteration]) or a record raises [csv.Error]. *)
Definition records : Type := iterator (list string).

(** [next(reader)], again and again: lines are read until the parser is
    back at the start of a record; at the end of the input a field left
    open is saved. *)
Fixpoint read_records (delimiter : ascii) (r : reader) (lines : list string)
  : records :=
  match lines with
  | [] =>
      if negb (field_len r =? 0)%N || parser_state_eqb (state r) IN_QUOTED_FIELD
      then Yield (fields (parse_save_field r)) Stop
      else Stop
  | line :: lines' =>
      match feed_line delimiter line r with
      | Raise e => Fail e
      | Ok r' =>
          if parser_state_eqb (state r') START_RECORD
          then Yield (fields r') (read_records delimiter parse_reset lines')
          else read_records delimiter r' lines'
      end
  end.

(** [csv.reader(f, delimiter=delimiter)] over the lines of [f]. *)
Definition reader_of (delimiter : ascii) (lines : list string) : records :=
  read_records delimiter parse_reset lines.

End Csv.

(** ** [csv.DictReader] *)

Module DictReader.

(** A value of a row dictionary: a string of the record, [None] (the
    [restval] of a short record), or the list of the surplus strings of a
    long record. *)
Inductive cell : Type :=
| CStr (s : string)
| CNone
| CRest (l : list string).

(** A row dictionary: the keys are the field names, and [None] (the
    [restkey]) for the surplus of a long record. *)
Abbreviation row := (gmap (option string) cell).

(** [dict(pairs)]: a later pair replaces an earlier one with the same key. *)
Definition dict_of_pairs {K V : Type} `{Countable K} (pairs : list (K * V))
  : gmap K V :=
  fold_left (fun d kv => <[fst kv := snd kv]> d) pairs ∅.

(** The dictionary [__next__] builds from a record that is not empty. *)
Definition row_dict (fieldnames record : list string) : row :=
  let d := dict_of_pairs (combine (map Some fieldnames) (map CStr record)) in
  let lf := length fieldnames in
  let lr := length record in
  if (lf <? lr)%nat then <[None := CRest (skipn lf record)]> d
  else if (lr <? lf)%nat
  then fold_left (fun d key => <[Some key := CNone]> d) (skipn lr fieldnames) d
  else d.

(** [reader.fieldnames]: the first record of the input if there is one,
    with what is left of the input. *)
Definition fieldnames (rs : Csv.records)
  : result (option (list string) * Csv.records) :=
  match rs with
  | Stop => Ok (None, Stop)
  | Yield record rest => Ok (Some record, rest)
  | Fail e => Raise e
  end.

(** Iterating the [DictReader]: empty records are passed over. *)
Fixpoint rows (names : list string) (rs : Csv.records) : iterator row :=
  match rs with
  | Stop => Stop
  | Fail e => Fail e
  | Yield [] rest => rows names rest
  | Yield record rest => Yield (row_dict names record) (rows names rest)
  end.

End DictReader.

(** ** [pathlib], POSIX flavour *)

Module Pathlib.

(** A pure path: its root ([""], ["/"] or ["//"]) and its parts. *)
Record path : Type := { root : string; parts : list string }.

Fixpoint split_on (sep : ascii) (cur s : string) : list string :=
  match s with
  | EmptyString => [cur]
  | String c s' =>
      if Ascii.eqb c sep then cur :: split_on sep "" s'
      else split_on sep (cur ++ String c "") s'
  end.

(** [posixpath.splitroot]: exactly two leading slashes are kept, one or
    more than two are one. *)
Definition splitroot (s : string) : string :=
  match s with
  | String "/" (String "/" (String "/" _)) => "/"
  | String "/" (String "/" _) => "//"
  | String "/" _ => "/"
  | _ => ""
  end.

Definition is_part (x : string) : bool :=
  Text.nonempty x && negb (String.eqb x ".").

(** [Path(s)] *)
Definition Path (s : string) : path :=
  {| root := splitroot s; parts := List.filter is_part (split_on "/" "" s) |}.

Definition is_absolute (p : path) : bool := Text.nonempty (root p).

(** [p.parent] *)
Definition parent (p : path) : path :=
  match parts p with
  | [] => p
  | _ => {| root := root p; parts := removelast (parts p) |}
  end.

(** [p / q] *)
Definition joinpath (p q : path) : path :=
  if is_absolute q then q
  else {| root := root p; parts := parts p ++ parts q |}.

(** [str(p)] *)
Definition path_str (p : path) : string :=
  match root p, parts p with
  | EmptyString, [] => "."
  | r, ps => r ++ Text.join "/" ps
  end.

(** The directories [mkdir(parents=True)] walks through: the path and
    everything above it, up to the root or the current directory. *)
Fixpoint prefixes {A : Type} (l : list A) : list (list A) :=
  match l with
  | [] => [[]]
  | x :: l' => [] :: map (cons x) (prefixes l')
  end.

Definition ancestors (p : path) : list path :=
  map (fun ps => {| root := root p; parts := ps |}) (prefixes (parts p)).

End Pathlib.

(** ** The file system *)

(** Files hold text, decoded; files and directories are found by the string
    of their path, so the model covers file systems in which the path
    strings in play name different files when they differ (no [..], no
    links, no mix of relative and absolute names for one file).  The
    directories are those of [dirs], the current directory, the root, and
    every path above a file or a directory.  [denied] is what the operating
    system answers when a directory is to be made at a path string where
    nothing stands, or a file to be created or truncated there: the
    exception it raises (a [PermissionError], a disk that is full or
    read-only), or [None].  What else can go wrong outside the script (a
    directory that cannot be searched, an input file that is not UTF-8, an
    error while the bytes are written) is not modelled. *)
Record filesystem : Type := {
  files : gmap string string;
  dirs : gset string;
  denied : string -> option exn
}.

Fixpoint proper_prefix (a b : list string) : bool :=
  match a, b with
  | [], _ :: _ => true
  | x :: a', y :: b' => String.eqb x y && proper_prefix a' b'
  | _, _ => false
  end.

(** [q] lies below [p]. *)
Definition lies_below (p q : Pathlib.path) : bool :=
  String.eqb (Pathlib.root p) (Pathlib.root q)
  && proper_prefix (Pathlib.parts p) (Pathlib.parts q).

(** The path strings at which a file or a directory stands. *)
Definition entries (fs : filesystem) : list string :=
  (map fst (map_to_list (files fs)) ++ elements (dirs fs))%list.

(** [p.is_dir()] *)
Definition is_dir (fs : filesystem) (p : Pathlib.path) : bool :=
  match Pathlib.parts p with [] => true | _ :: _ => false end
  || bool_decide (Pathlib.path_str p ∈ dirs fs)
  || existsb (fun entry => lies_below p (Pathlib.Path entry)) (entries fs).

(** [p.is_file()] *)
Definition is_file (fs : filesystem) (p : Pathlib.path) : bool :=
  bool_decide (is_Some (files fs !! Pathlib.path_str p)).

(** [p.exists()] *)
Definition path_exists (fs : filesystem) (p : Pathlib.path) : bool :=
  is_file fs p || is_dir fs p.

(** The [OSError]s of this file, as Linux words them: [str(exc)] is the
    error number, its text and the [repr] of the path. *)
Definition os_error (cls : string) (errno : Z) (strerror : string)
    (p : Pathlib.path) : exn :=
  OtherError cls
    ("[Errno " ++ Text.str_of_Z errno ++ "] " ++ strerror ++ ": "
     ++ Text.repr (Pathlib.path_str p)).

Definition IsADirectoryError : Pathlib.path -> exn :=
  os_error "IsADirectoryError" 21 "Is a directory".
Definition FileExistsError : Pathlib.path -> exn :=
  os_error "FileExistsError" 17 "File exists".
Definition NotADirectoryError : Pathlib.path -> exn :=
  os_error "NotADirectoryError" 20 "Not a directory".

(** [p.open("r", encoding="utf-8-sig", newline="")], read whole. *)
Definition open_read (fs : filesystem) (p : Pathlib.path) : result string :=
  match files fs !! Pathlib.path_str p with
  | Some text => Ok text
  | None =>
      if is_dir fs p then Raise (IsADirectoryError p)
      else Raise (FileNotFoundError
                    ("[Errno 2] No such file or directory: "
                     ++ Text.repr (Pathlib.path_str p)))
  end.

Definition add_dir (p : Pathlib.path) (fs : filesystem) : filesystem :=
  {| files := files fs; dirs := dirs fs ∪ {[Pathlib.path_str p]};
     denied := denied fs |}.

(** The directories from the top down to [target], each made where
    nothing stands.  A file in the way ends the making: [mkdir] fails with
    [FileExistsError] when the file is at [target] itself, and with
    [NotADirectoryError] when it is above; both name [target].  The
    directories made before an exception stay. *)
Fixpoint make_dirs (target : Pathlib.path) (qs : list Pathlib.path)
    (fs : filesystem) : option exn * filesystem :=
  match qs with
  | [] => (None, fs)
  | q :: qs' =>
      if is_dir fs q then make_dirs target qs' fs
      else if is_file fs q then
        (Some (if String.eqb (Pathlib.path_str q) (Pathlib.path_str target)
               then FileExistsError target else NotADirectoryError target),
         fs)
      else
        match denied fs (Pathlib.path_str q) with
        | Some e => (Some e, fs)
        | None => make_dirs target qs' (add_dir q fs)
        end
  end.

(** [p.mkdir(parents=True, exist_ok=True)]: the exception it raises, if it
    raises one, and the file system it leaves. *)
Definition mkdir_parents (p : Pathlib.path) (fs : filesystem)
  : option exn * filesystem :=
  make_dirs p (Pathlib.ancestors p) fs.

(** [p.open("w", ...)] once the directory above [p] is there: the
    exception it raises, if it raises one. *)
Definition open_write (fs : filesystem) (p : Pathlib.path) : option exn :=
  if is_dir fs p then Some (IsADirectoryError p)
  else denied fs (Pathlib.path_str p).

(** What writing [text] to the file opened at [p] and closing it leaves:
    the file at [p] holds [text].  The opening comes first and can fail
    ([open_write]); the writing itself does not fail here. *)
Definition write_text (p : Pathlib.path) (text : string) (fs : filesystem)
  : filesystem :=
  {| files := <[Pathlib.path_str p := text]> (files fs); dirs := dirs fs;
     denied := denied fs |}.

(** ** [urllib]: quoting, requests and what opening one gives *)

Module Urllib.

Definition hex_digit (n : N) : ascii :=
  if (n <? 10)%N then ascii_of_N (48 + n) else ascii_of_N (55 + n).

(** ["%XX"] for one byte. *)
Definition percent (b : N) : string :=
  String "%" (String (hex_digit (b / 16)) (String (hex_digit (b mod 16)) "")).

(** The characters [quote] never escapes: letters, digits and [_.-~]. *)
Definition always_safe (c : ascii) : bool :=
  let n := N_of_ascii c in
  ((65 <=? n) && (n <=? 90) || (97 <=? n) && (n <=? 122)
   || (48 <=? n) && (n <=? 57))%N
  || Text.mem_char c "_.-~".

(** [quote_plus] on one character: a space is a plus sign, an unsafe
    character the escaped bytes of its UTF-8 encoding. *)
Definition quote_plus_char (c : ascii) : string :=
  let n := N_of_ascii c in
  if always_safe c then String c ""
  else if Ascii.eqb c " " then "+"
  else if (n <? 128)%N then percent n
  else percent (192 + n / 64) ++ percent (128 + n mod 64).

Fixpoint quote_plus (s : string) : string :=
  match s with
  | EmptyString => ""
  | String c s' => quote_plus_char c ++ quote_plus s'
  end.

(** [urlencode(query)] for a dictionary given by its items. *)
Definition urlencode (query : list (string * string)) : string :=
  Text.join "&"
    (map (fun kv => quote_plus (fst kv) ++ "=" ++ quote_plus (snd kv)) query).

Record request : Type := {
  url : string;
  headers : gmap string string;
  method : string
}.

(** What [urlopen(request, timeout=...)], the reading and decoding of the
    body and [json.loads] come to, in the [try] block of
    [fetch_units_for_product]: a payload, one of the three exceptions the
    block handles, or any other exception, which it lets through. *)
Inductive response : Type :=
| Payload (payload : pyval)
| HTTPError (code : Z) (detail : string)  (* the error body, decoded *)
| URLError (reason : string)              (* [exc.reason], as text *)
| JSONDecodeError (msg : string)          (* [str(exc)] *)
| Unhandled (e : exn).

End Urllib.

(** ** The [csv] module: writer *)

Module CsvWriter.

(** The text of one field: [None] is empty, a string is itself, anything
    else goes through [str()]. *)
Definition field_text (py_str : pyval -> string) (v : pyval) : string :=
  match v with
  | PNone => ""
  | PStr s => s
  | _ => py_str v
  end.

(** [QUOTE_MINIMAL]: a field is quoted when it holds the delimiter, the
    quote character or a character of the line terminator. *)
Definition special (delimiter c : ascii) : bool :=
  Ascii.eqb c delimiter || Ascii.eqb c Csv.quotechar
  || Ascii.eqb c Csv.CR || Ascii.eqb c Csv.LF.

Fixpoint needs_quotes (delimiter : ascii) (s : string) : bool :=
  match s with
  | EmptyString => false
  | String c s' => special delimiter c || needs_quotes delimiter s'
  end.

(** [doublequote]: a quote character inside a field is written twice. *)
Fixpoint double_quotes (s : string) : string :=
  match s with
  | EmptyString => ""
  | String c s' =>
      if Ascii.eqb c Csv.quotechar
      then String c (String c (double_quotes s'))
      else String c (double_quotes s')
  end.

Definition quoted (s : string) : string :=
  String Csv.quotechar (double_quotes s ++ String Csv.quotechar "").

Definition write_field (delimiter : ascii) (s : string) : string :=
  if needs_quotes delimiter s then quoted s else s.

Definition lineterminator : string := String Csv.CR (String Csv.LF "").

(** [writer.writerow(values)]: the fields joined by the delimiter; a
    record of one empty field is written as a quoted empty field. *)
Definition writerow (py_str : pyval -> string) (delimiter : ascii)
    (values : list pyval) : string :=
  let rec := Text.join (String delimiter "")
               (map (fun v => write_field delimiter (field_text py_str v))
                    values) in
  (if negb (Text.nonempty rec) && (0 <? length values)%nat
   then quoted "" else rec) ++ lineterminator.

(** [DictWriter._dict_to_list], with [extrasaction="raise"] and
    [restval=""].  Python lists several offending keys in the order in
    which it iterates over a set, which changes from run to run; here they
    stand in the order of [elements]. *)
Definition dict_to_list (fieldnames : list string) (rowdict : gmap string pyval)
  : result (list pyval) :=
  if bool_decide (dom rowdict ⊆ list_to_set fieldnames)
  then Ok (map (fun key => default (PStr "") (rowdict !! key)) fieldnames)
  else
    let wrong_fields :=
      elements (dom rowdict ∖ (list_to_set fieldnames : gset string)) in
    Raise (ValueError ("dict contains fields not in fieldnames: "
                       ++ Text.join ", " (map Text.repr wrong_fields))).

(** [DictWriter.writeheader] *)
Definition writeheader (py_str : pyval -> string) (delimiter : ascii)
    (fieldnames : list string) : string :=
  writerow py_str delimiter (map PStr fieldnames).

(** [DictWriter.writerows]: the text written, and the exception that ended
    the writing if a row raised one. *)
Fixpoint writerows (py_str : pyval -> string) (delimiter : ascii)
    (fieldnames : list string) (rows : list (gmap string pyval))
  : string * option exn :=
  match rows with
  | [] => ("", None)
  | rowdict :: rows' =>
      match dict_to_list fieldnames rowdict with
      | Raise e => ("", Some e)
      | Ok values =>
          let (text, e) := writerows py_str delimiter fieldnames rows' in
          (writerow py_str delimiter values ++ text, e)
      end
  end.

End CsvWriter.

(** ** The program *)

Definition API_BASE : string := "https://app.rackbeat.com/api/products".
Definition FIELDS : string := "unit,name,quantity".

(** The namespace [parse_args] returns. *)
Record arguments (Timeout : Type) : Type := {
  token : option string;
  input : string;
  output : option string;
  timeout : Timeout
}.
Arguments token {Timeout} _.
Arguments input {Timeout} _.
Arguments output {Timeout} _.
Arguments timeout {Timeout} _.

(** What a run changes: the file system, the two streams (one entry for
    each [print]), the number of requests opened so far, and these
    requests, in the order in which they were opened. *)
Record world : Type := {
  fs : filesystem;
  stdout : list string;
  stderr : list string;
  requests : nat;
  opened : list Urllib.request
}.

Definition print (line : string) (w : world) : world :=
  {| fs := fs w; stdout := stdout w ++ [line]; stderr := stderr w;
     requests := requests w; opened := opened w |}.

Definition eprint (line : string) (w : world) : world :=
  {| fs := fs w; stdout := stdout w; stderr := stderr w ++ [line];
     requests := requests w; opened := opened w |}.

Definition with_fs (f : filesystem -> filesystem) (w : world) : world :=
  {| fs := f (fs w); stdout := stdout w; stderr := stderr w;
     requests := requests w; opened := opened w |}.

Definition count_request (request : Urllib.request) (w : world) : world :=
  {| fs := fs w; stdout := stdout w; stderr := stderr w;
     requests := S (requests w); opened := opened w ++ [request] |}.

Definition candidates : list string :=
  ["product_number"; "productnumber"; "product no"; "product_no";
   "product nr"; "productnr"; "itemnumber"; "sku"; "varenummer"].

(** [{name.strip().lower(): name for name in fieldnames}] *)
Definition normalized (fieldnames : list string) : gmap string string :=
  fold_left (fun d name => <[Text.lower (Text.strip name) := name]> d)
            fieldnames ∅.

Fixpoint first_candidate (cands : list string) (d : gmap string string)
  : option string :=
  match cands with
  | [] => None
  | candidate :: cands' =>
      match d !! candidate with
      | Some name => Some name
      | None => first_candidate cands' d
      end
  end.

Definition get_product_number_field (fieldnames : option (list string))
  : option string :=
  match fieldnames with
  | None | Some [] => None
  | Some ((first :: _) as names) =>
      match first_candidate candidates (normalized names) with
      | Some name => Some name
      | None => Some first
      end
  end.

(** [(row.get(field) or "")], on its way to [.strip()]: a list has no
    [strip]. *)
Definition get_or_empty (r : DictReader.row) (field : string) : result string :=
  match r !! Some field with
  | None | Some DictReader.CNone => Ok ""
  | Some (DictReader.CStr s) => Ok s
  | Some (DictReader.CRest []) => Ok ""
  | Some (DictReader.CRest (_ :: _)) =>
      Raise (AttributeError "'list' object has no attribute 'strip'")
  end.

(** The loop over the rows of the [DictReader]. *)
Fixpoint collect_values (field : string) (it : iterator DictReader.row)
  : result (list string) :=
  match it with
  | Stop => Ok []
  | Fail e => Raise e
  | Yield r rest =>
      match get_or_empty r field with
      | Raise e => Raise e
      | Ok s =>
          let value := Text.strip s in
          match collect_values field rest with
          | Raise e => Raise e
          | Ok values =>
              Ok (if Text.nonempty value then value :: values else values)
          end
      end
  end.

(** The loop over the bare lines of the file. *)
Fixpoint bare_values (lines : list string) : list string :=
  match lines with
  | [] => []
  | line :: lines' =>
      let value := Text.strip_chars ";," (Text.strip line) in
      if Text.nonempty value
         && negb (Text.startswith (Text.lower value) "product")
      then value :: bare_values lines'
      else bare_values lines'
  end.

Definition build_units_url (product_number : string) : string :=
  let query := Urllib.urlencode [("fields", FIELDS)] in
  API_BASE ++ "/" ++ product_number ++ "/units?" ++ query.

(** The request [fetch_units_for_product] builds. *)
Definition units_request (product_number token : string) : Urllib.request :=
  {| Urllib.url := build_units_url product_number;
     Urllib.headers :=
       <["Accept" := "application/json"]>
       (<["Authorization" := "Bearer " ++ token]> ∅);
     Urllib.method := "GET" |}.

(** The [try] statement of [fetch_units_for_product], on what opening the
    request gives: the units, or the exception that leaves the function. *)
Definition units_or_error (product_number url : string) (r : Urllib.response)
  : result (list pyval) :=
  match r with
  | Urllib.Payload payload => Ok (parse_units_payload payload)
  | Urllib.HTTPError code detail =>
      Raise (RuntimeError
        ("HTTP " ++ Text.str_of_Z code ++ " for product '" ++ product_number
         ++ "' at " ++ url ++ ". Response: " ++ detail))
  | Urllib.URLError reason =>
      Raise (RuntimeError
        ("Network error for product '" ++ product_number ++ "': " ++ reason))
  | Urllib.JSONDecodeError msg =>
      Raise (RuntimeError
        ("Invalid JSON for product '" ++ product_number ++ "': " ++ msg))
  | Urllib.Unhandled e => Raise e
  end.

(** One output row: the dictionary [to_output_rows] builds for a unit. *)
Definition output_row (product_number : string) (unit_item : gmap string pyval)
  : gmap string pyval :=
  <["quantity" := default (PStr "") (unit_item !! "quantity")]>
  (<["unitname" := default (PStr "") (unit_item !! "name")]>
  (<["unit" := default (PStr "") (unit_item !! "unit")]>
  (<["product_number" := PStr product_number]> ∅))).

(** Only a dictionary has [get]. *)
Fixpoint to_output_rows (product_number : string) (units : list pyval)
  : result (list (gmap string pyval)) :=
  match units with
  | [] => Ok []
  | PDict unit_item :: units' =>
      match to_output_rows product_number units' with
      | Ok rows => Ok (output_row product_number unit_item :: rows)
      | Raise e => Raise e
      end
  | unit_item :: _ =>
      Raise (AttributeError
               ("'" ++ type_name unit_item
                ++ "' object has no attribute 'get'"))
  end.

(** The first two statements of [write_output_csv]: the directories above
    the output path are made, and the path is opened for writing.  The
    exception that one of them raises, if one does, and the file system
    they leave. *)
Definition prepare_output (output_path : Pathlib.path) (disk : filesystem)
  : option exn * filesystem :=
  let (e, made) := mkdir_parents (Pathlib.parent output_path) disk in
  match e with
  | Some e => (Some e, made)
  | None => (open_write made output_path, made)
  end.

Definition output_fieldnames : list string :=
  ["product_number"; "unit"; "unitname"; "quantity"].

Section Program.

Variable Timeout : Type.
(** [csv.Sniffer().sniff(sample, delimiters)]: the delimiter of the dialect
    it finds, or [None] where it raises [csv.Error]. *)
Variable sniff : string -> string -> option ascii.
(** [str(v)] for a value that is neither a string nor [None]. *)
Variable py_str : pyval -> string.
(** The [try] block of [fetch_units_for_product], for the request that is
    opened after [n] earlier ones. *)
Variable urlopen : nat -> Urllib.request -> Timeout -> Urllib.response.
(** [os.getenv] *)
Variable getenv : string -> option string.

Definition get_token (arg_token : option string) : result string :=
  let token :=
    match arg_token with
    | Some (String _ _ as t) => Some t
    | _ => getenv "RACKBEAT_BEARER_TOKEN"
    end in
  match token with
  | Some (String _ _ as t) => Ok (Text.strip t)
  | _ => Raise (ValueError
           "Bearer token is required via --token or RACKBEAT_BEARER_TOKEN.")
  end.

Definition detect_delimiter (sample : string) : ascii :=
  match sniff sample (";," ++ String "009" ",") with
  | Some delimiter => delimiter
  | None => ";"
  end.

(** The first [with] block of [read_product_numbers]: the values of the
    product-number column; no value where the file has no field names. *)
Definition structured_values (text : string) : result (list string) :=
  let sample := Text.take 4096 text in
  let delimiter := detect_delimiter sample in
  let reader := Csv.reader_of delimiter (Text.file_lines text) in
  match DictReader.fieldnames reader with
  | Raise e => Raise e
  | Ok (None, _) | Ok (Some [], _) => Ok []
  | Ok (Some names, rest) =>
      match get_product_number_field (Some names) with
      | None | Some EmptyString =>
          Raise (ValueError
            "Unable to determine product number column in input CSV.")
      | Some field => collect_values field (DictReader.rows names rest)
      end
  end.

Definition read_product_numbers (files : filesystem) (input_path : Pathlib.path)
  : result (list string) :=
  if negb (path_exists files input_path)
  then Raise (FileNotFoundError
         ("Input file does not exist: " ++ Pathlib.path_str input_path))
  else
    match open_read files input_path with
    | Raise e => Raise e
    | Ok text =>
        match structured_values text with
        | Raise e => Raise e
        | Ok (value :: values) => Ok (value :: values)
        | Ok [] => Ok (bare_values (Text.file_lines text))
        end
    end.

Definition fetch_units_for_product (product_number token : string)
    (timeout : Timeout) (w : world) : result (list pyval) * world :=
  let url := build_units_url product_number in
  let request := units_request product_number token in
  (units_or_error product_number url (urlopen (requests w) request timeout),
   count_request request w).

(** The text [write_output_csv] writes, and the exception that ended the
    writing if a row raised one. *)
Definition output_text (rows : list (gmap string pyval)) : string * option exn :=
  let (body, e) := CsvWriter.writerows py_str ";" output_fieldnames rows in
  (CsvWriter.writeheader py_str ";" output_fieldnames ++ body, e).

Definition write_output_csv (output_path : Pathlib.path)
    (rows : list (gmap string pyval)) (w : world) : result unit * world :=
  let (refusal, made) := prepare_output output_path (fs w) in
  match refusal with
  | Some e => (Raise e, with_fs (fun _ => made) w)
  | None =>
      let (text, e) := output_text rows in
      let w2 := with_fs (fun _ => write_text output_path text made) w in
      match e with
      | None => (Ok tt, w2)
      | Some e => (Raise e, w2)
      end
  end.

(** The output path [main] settles on. *)
Definition resolve_output_path (input_path : Pathlib.path)
    (output : option string) : Pathlib.path :=
  match output with
  | Some (String _ _ as out) =>
      let candidate_output := Pathlib.Path out in
      if Pathlib.is_absolute candidate_output then candidate_output
      else Pathlib.joinpath (Pathlib.parent input_path) candidate_output
  | _ =>
      Pathlib.joinpath (Pathlib.parent input_path)
                       (Pathlib.Path "product_units.csv")
  end.

(** The loop of [main] over the product numbers: the rows and the errors so
    far go in, and come out extended, unless an exception that is not a
    [RuntimeError] ends the loop. *)
Fixpoint fetch_all (product_numbers : list string) (token : string)
    (timeout : Timeout) (all_rows : list (gmap string pyval))
    (errors : list string) (w : world)
  : result (list (gmap string pyval) * list string) * world :=
  match product_numbers with
  | [] => (Ok (all_rows, errors), w)
  | product_number :: rest =>
      let (units, w') := fetch_units_for_product product_number token timeout w in
      let attempt :=
        match units with
        | Ok units => to_output_rows product_number units
        | Raise e => Raise e
        end in
      match attempt with
      | Ok rows => fetch_all rest token timeout (all_rows ++ rows) errors w'
      | Raise (RuntimeError msg) =>
          fetch_all rest token timeout all_rows (errors ++ [msg]) w'
      | Raise e => (Raise e, w')
      end
  end.

Fixpoint eprint_all (lines : list string) (w : world) : world :=
  match lines with
  | [] => w
  | line :: lines' => eprint_all lines' (eprint ("- " ++ line) w)
  end.

(** The [try] block of [main]: the exit code, or the exception that leaves
    the block. *)
Definition main_try (args : arguments Timeout) (w : world) : result Z * world :=
  match get_token (token args) with
  | Raise e => (Raise e, w)
  | Ok token =>
      let input_path := Pathlib.Path (input args) in
      let output_path := resolve_output_path input_path (output args) in
      match read_product_numbers (fs w) input_path with
      | Raise e => (Raise e, w)
      | Ok [] => (Ok 1%Z, eprint "No product numbers found in input CSV." w)
      | Ok product_numbers =>
          match fetch_all product_numbers token (timeout args) [] [] w with
          | (Raise e, w1) => (Raise e, w1)
          | (Ok (all_rows, errors), w1) =>
              match write_output_csv output_path all_rows w1 with
              | (Raise e, w2) => (Raise e, w2)
              | (Ok _, w2) =>
                  let w3 :=
                    print ("Output file: " ++ Pathlib.path_str output_path)
                      (print ("Output rows written: "
                              ++ Text.str_of_nat (length all_rows))
                         (print ("Processed products: "
                                 ++ Text.str_of_nat (length product_numbers))
                            w2)) in
                  match errors with
                  | [] => (Ok 0%Z, w3)
                  | _ :: _ =>
                      (Ok 2%Z,
                       eprint_all errors
                         (eprint ("Errors: " ++ Text.str_of_nat (length errors))
                                 w3))
                  end
              end
          end
      end
  end.

(** [main]: the exit code and the world after the run. *)
Definition main (args : arguments Timeout) (w : world) : Z * world :=
  match main_try args w with
  | (Ok code, w') => (code, w')
  | (Raise e, w') => (1%Z, eprint ("Error: " ++ exn_str e) w')
  end.

End Program.

(** ** The specification's notions *)

Module Spec.

(** A wrapper key of the object holds a list. *)
Definition holds_list (d : gmap string pyval) (key : string) : bool :=
  match d !! key with
  | Some (PList _) => true
  | _ => false
  end.

(** The values an iterator yields when it ends without raising. *)
Fixpoint to_list {A : Type} (it : iterator A) : option (list A) :=
  match it with
  | Stop => Some []
  | Fail _ => None
  | Yield a rest =>
      match to_list rest with
      | Some l => Some (a :: l)
      | None => None
      end
  end.

(** The records of the input file, when the [csv] module reads them all
    without an error: the header row, then the data rows. *)
Definition parsed (sniff : string -> string -> option ascii) (text : string)
  : option (list (list string)) :=
  to_list (Csv.reader_of (detect_delimiter sniff (Text.take 4096 text))
                         (Text.file_lines text)).

(** The value a list of pairs gives a key: that of the last pair with this
    key. *)
Fixpoint last_assoc {K V : Type} `{EqDecision K} (k : K) (pairs : list (K * V))
  : option V :=
  match pairs with
  | [] => None
  | p :: pairs' =>
      match last_assoc k pairs' with
      | Some v => Some v
      | None => if decide (fst p = k) then Some (snd p) else None
      end
  end.

(** The columns of a header row, each with the value a record has for it:
    [None] where the record is too short. *)
Fixpoint cells (names record : list string)
  : list (option string * DictReader.cell) :=
  match names, record with
  | [], _ => []
  | name :: names', [] => (Some name, DictReader.CNone) :: cells names' []
  | name :: names', s :: record' =>
      (Some name, DictReader.CStr s) :: cells names' record'
  end.

(** A column name matches a candidate when it is the candidate once
    trimmed and put in lower case. *)
Definition matches (candidate name : string) : bool :=
  String.eqb (Text.lower (Text.strip name)) candidate.

Definition recognized (names : list string) (candidate : string) : bool :=
  existsb (matches candidate) names.

(** The last element of a list that satisfies a test. *)
Fixpoint last_match (p : string -> bool) (names : list string) : option string :=
  match names with
  | [] => None
  | name :: names' =>
      match last_match p names' with
      | Some found => Some found
      | None => if p name then Some name else None
      end
  end.

(** The product-number column of a header row: the column that matches the
    first candidate, in the order of the list, that some column matches
    (the last such column if there are several), else the first column. *)
Definition product_number_column (names : list string) : option string :=
  match find (recognized names) candidates with
  | Some candidate => last_match (matches candidate) names
  | None => head names
  end.

(** The position of a column, by its name: the last one with this name. *)
Fixpoint last_index (field : string) (names : list string) : option nat :=
  match names with
  | [] => None
  | name :: names' =>
      match last_index field names' with
      | Some i => Some (S i)
      | None => if String.eqb name field then Some 0 else None
      end
  end.

(** The value of a column in a data row; a row too short has none. *)
Definition cell_of (names : list string) (field : string)
    (record : list string) : string :=
  match last_index field names with
  | Some i => nth i record ""
  | None => ""
  end.

(** The trimmed values of a column that are not empty, in row order. *)
Definition column_values (names : list string) (field : string)
    (data : list (list string)) : list string :=
  List.filter Text.nonempty
    (map (fun record => Text.strip (cell_of names field record)) data).

(** A line looks like a header. *)
Definition header_like (value : string) : bool :=
  Text.startswith (Text.lower value) "product".

(** The bare-line values as the specification words them: the lines that
    are not empty once trimmed and do not look like a header, each with
    its delimiter characters stripped. *)
Definition claimed_bare_values (lines : list string) : list string :=
  map (fun line => Text.strip_chars ";," (Text.strip line))
    (List.filter (fun line => Text.nonempty (Text.strip line)
                              && negb (header_like (Text.strip line)))
                 lines).

(** The bare-line values as the reader takes them: each line trimmed and
    stripped of its delimiter characters, when what is left is not empty
    and does not look like a header. *)
Definition stripped_bare_values (lines : list string) : list string :=
  List.filter (fun value => Text.nonempty value && negb (header_like value))
    (map (fun line => Text.strip_chars ";," (Text.strip line)) lines).

(** A text neither starts nor ends with one of the characters. *)
Definition first_char (s : string) : option ascii :=
  match s with
  | EmptyString => None
  | String c _ => Some c
  end.

Fixpoint last_char (s : string) : option ascii :=
  match s with
  | EmptyString => None
  | String c EmptyString => Some c
  | String _ s' => last_char s'
  end.

Definition free_of (chars : string) (c : option ascii) : bool :=
  match c with
  | None => true
  | Some c => negb (Text.mem_char c chars)
  end.

Definition stripped_of (chars : string) (s : string) : bool :=
  free_of chars (first_char s) && free_of chars (last_char s).

(** The header line of the output file. *)
Definition header_line : string :=
  "product_number;unit;unitname;quantity" ++ CsvWriter.lineterminator.

(** How a field of a unit record is written: empty when the record has no
    such key. *)
Definition serialized (py_str : pyval -> string) (unit_item : gmap string pyval)
    (key : string) : string :=
  match unit_item !! key with
  | None => ""
  | Some v => CsvWriter.write_field ";" (CsvWriter.field_text py_str v)
  end.

(** The line of one unit record of one product. *)
Definition row_line (py_str : pyval -> string) (product_number : string)
    (unit_item : gmap string pyval) : string :=
  CsvWriter.write_field ";" product_number ++ ";"
  ++ serialized py_str unit_item "unit" ++ ";"
  ++ serialized py_str unit_item "name" ++ ";"
  ++ serialized py_str unit_item "quantity" ++ CsvWriter.lineterminator.

Fixpoint concat_lines (lines : list string) : string :=
  match lines with
  | [] => ""
  | line :: lines' => line ++ concat_lines lines'
  end.

(** The objects of a list of values. *)
Fixpoint dicts (l : list pyval) : list (gmap string pyval) :=
  match l with
  | [] => []
  | PDict d :: l' => d :: dicts l'
  | _ :: l' => dicts l'
  end.


(** A fetch does not end the run: it gives a payload, or it fails with an
    HTTP status, a network error or invalid JSON, which
    [fetch_units_for_product] turns into a [RuntimeError] (or with a
    [RuntimeError] of its own). *)
Definition handled (r : Urllib.response) : bool :=
  match r with
  | Urllib.Unhandled (RuntimeError _) => true
  | Urllib.Unhandled _ => false
  | _ => true
  end.


(** The unit records of a product, each with the product number. *)
Definition units_of (pr : string * Urllib.response)
  : list (string * gmap string pyval) :=
  match snd pr with
  | Urllib.Payload payload =>
      map (pair (fst pr)) (dicts (parse_units_payload payload))
  | _ => []
  end.

(** The text of the output file for these unit records. *)
Definition output_file (py_str : pyval -> string)
    (units : list (string * gmap string pyval)) : string :=
  header_line
  ++ concat_lines (map (fun pu => row_line py_str (fst pu) (snd pu)) units).

(** The error a product contributes. *)
Definition errors_of (pr : string * Urllib.response) : list string :=
  match units_or_error (fst pr) (build_units_url (fst pr)) (snd pr) with
  | Raise (RuntimeError msg) => [msg]
  | _ => []
  end.

(** The products of a run, each with what opening its request gives: the
    request of the first product is opened after [n] earlier ones. *)
Fixpoint responses {Timeout : Type}
    (urlopen : nat -> Urllib.request -> Timeout -> Urllib.response)
    (product_numbers : list string) (token : string) (timeout : Timeout)
    (n : nat) : list (string * Urllib.response) :=
  match product_numbers with
  | [] => []
  | product_number :: rest =>
      (product_number, urlopen n (units_request product_number token) timeout)
      :: responses urlopen rest token timeout (S n)
  end.

(** The world after the requests for these product numbers were opened,
    one after the other. *)
Definition after_requests (product_numbers : list string) (token : string)
    (w : world) : world :=
  fold_left (fun w' product_number =>
               count_request (units_request product_number token) w')
            product_numbers w.

End Spec.

(** ** Sample data *)

Module Examples.


(** [str()] of the scalars; a float and a container are not spelled out. *)
Definition py_str (v : pyval) : string :=
  match v with
  | PNone => "None"
  | PBool true => "True"
  | PBool false => "False"
  | PInt z => Text.str_of_Z z
  | PStr s => s
  | PFloat _ | PList _ | PDict _ => "?"
  end.

(** A file system with one input file, and a world that has it. *)
Definition disk (name text : string) : filesystem :=
  {| files := {[name := text]}; dirs := ∅; denied := fun _ => None |}.

Definition start (name text : string) : world :=
  {| fs := disk name text; stdout := []; stderr := []; requests := 0;
     opened := [] |}.

Definition LF : string := String Csv.LF "".

Definition no_env (name : string) : option string := None.

Definition args_of (input_file : string) (out : option string)
  : arguments Z :=
  {| token := Some "secret"; input := input_file; output := out;
     timeout := 30%Z |}.

(** An input file with a header and two product numbers, one with a
    header alone, and one with a single product number. *)
Definition two_numbers : string :=
  "product_number" ++ LF ++ "A1" ++ LF ++ "A2" ++ LF.

Definition header_only : string := "product_number" ++ LF.

Definition one_number : string := "product_number" ++ LF ++ "A1" ++ LF.

Definition piece : gmap string pyval :=
  {["unit" := PStr "pcs"; "name" := PStr "Piece"; "quantity" := PInt 1]}.

Definition box : gmap string pyval :=
  {["unit" := PStr "box"; "name" := PStr "Box"; "quantity" := PInt 12]}.

(** The API has two units for A1 and answers 404 for anything else. *)
Definition urlopen_404 (n : nat) (request : Urllib.request) (timeout : Z)
  : Urllib.response :=
  if String.eqb (Urllib.url request) (build_units_url "A1")
  then Urllib.Payload (PDict {["data" := PList [PDict piece; PDict box]]})
  else Urllib.HTTPError 404 "Not Found".

(** The API answers with a body that is not UTF-8: decoding it raises. *)
Definition urlopen_undecodable (n : nat) (request : Urllib.request)
    (timeout : Z) : Urllib.response :=
  Urllib.Unhandled
    (OtherError "UnicodeDecodeError"
       "'utf-8' codec can't decode byte 0xff in position 0: invalid start byte").


(** A product-number column without a value in its only row. *)
Definition empty_column : string := "sku;name" ++ LF ++ ";widget" ++ LF.

(** What the sniffer answers on the sample files: the semicolon for
    [empty_column]; [csv.Error] for the others, where no candidate
    delimiter stands on every line. *)
Definition sniff (sample delimiters : string) : option ascii :=
  if String.eqb sample empty_column then Some ";"%char else None.

(** A run against the API of [urlopen_404]: the token is given on the
    command line and the input file is the only file there is. *)
Definition run_404 (input_file : string) (out : option string)
    (text : string) : Z * world :=
  main Z sniff py_str urlopen_404 no_env (args_of input_file out)
    (start input_file text).

(** No header; an empty row between two product numbers. *)
Definition bare_lines : string :=
  LF ++ "A1" ++ LF ++ ";;" ++ LF ++ "A2" ++ LF.


End Examples.

(** ** Further notions *)

Module Notions.

(** A text neither starts nor ends with a character that satisfies the
    test. *)
Definition ends_clear (p : ascii -> bool) (s : string) : bool :=
  match Spec.first_char s with
  | Some c => negb (p c)
  | None => true
  end
  && match Spec.last_char s with
     | Some c => negb (p c)
     | None => true
     end.

(** An exception that the loop of [main] does not catch. *)
Definition uncaught (e : exn) : bool :=
  match e with
  | RuntimeError _ => false
  | _ => true
  end.

(** The Python truth value of an optional string is false. *)
Definition blank (o : option string) : bool :=
  match o with
  | Some (String _ _) => false
  | _ => true
  end.

(** A failure that [fetch_units_for_product] turns into a [RuntimeError]
    of its own. *)
Definition converted (r : Urllib.response) : bool :=
  match r with
  | Urllib.HTTPError _ _ | Urllib.URLError _ | Urllib.JSONDecodeError _ => true
  | _ => false
  end.

(** Every character of a text satisfies the test. *)
Fixpoint all_chars (p : ascii -> bool) (s : string) : bool :=
  match s with
  | EmptyString => true
  | String c s' => p c && all_chars p s'
  end.

(** A field text that the writer leaves as it is and the reader takes
    whole: it holds no semicolon, no quote character and no line end, and
    it is not longer than the field limit of the reader. *)
Definition readable (s : string) : bool :=
  all_chars (fun c => negb (CsvWriter.special ";" c)) s
  && (N.of_nat (String.length s) <=? Csv.field_limit)%N.

(** The text of a field of a unit record; none without the key. *)
Definition text_of (py_str : pyval -> string) (unit_item : gmap string pyval)
    (key : string) : string :=
  match unit_item !! key with
  | None => ""
  | Some v => CsvWriter.field_text py_str v
  end.

(** The four field texts of a unit record of a product. *)
Definition record_of (py_str : pyval -> string)
    (pu : string * gmap string pyval) : list string :=
  [fst pu; text_of py_str (snd pu) "unit"; text_of py_str (snd pu) "name";
   text_of py_str (snd pu) "quantity"].

(** The iterator that yields the elements of a list and stops. *)
Fixpoint yields {A : Type} (l : list A) : iterator A :=
  match l with
  | [] => Stop
  | a :: l' => Yield a (yields l')
  end.

End Notions.

(** ** Further sample data *)

Module Samples.

(** A header row whose first column has no name and matches no candidate. *)
Definition unnamed_column : string :=
  ";name" ++ Examples.LF ++ "1;x" ++ Examples.LF.

(** Three columns, two of them candidates. *)
Definition three_columns : string :=
  "id;SKU ;Product_Number" ++ Examples.LF ++ "1;S1;P1" ++ Examples.LF
  ++ "2;S2; P2 " ++ Examples.LF.

(** A header after an empty first line. *)
Definition late_header : string :=
  Examples.LF ++ "sku;name" ++ Examples.LF ++ "A1;widget" ++ Examples.LF.

(** Two product numbers; the third line repeats the first. *)
Definition repeated : string :=
  "product_number" ++ Examples.LF ++ "A1" ++ Examples.LF ++ "A2"
  ++ Examples.LF ++ "A1" ++ Examples.LF.

(** What the sniffer answers on these files: the semicolon, which stands
    as often on every line that is not empty, for the first three;
    [csv.Error] for [repeated]. *)
Definition sniff (sample delimiters : string) : option ascii :=
  if String.eqb sample repeated then None else Some ";"%char.

(** The API has one unit for A1; the body of the answer for any other
    product is not UTF-8. *)
Definition urlopen_then_undecodable (n : nat) (request : Urllib.request)
    (timeout : Z) : Urllib.response :=
  if String.eqb (Urllib.url request) (build_units_url "A1")
  then Urllib.Payload (PList [PDict Examples.piece])
  else Examples.urlopen_undecodable n request timeout.

End Samples.

(** * Properties *)

(** ** Unwrapping the payload *)

Section Payload.

Implicit Types (d : gmap string pyval) (l : list pyval) (payload : pyval).

Lemma filter_is_dict_all l :
  Forall (fun item => is_dict item = true) (List.filter is_dict l).
Proof.
  induction l as [|item l IH]; simpl; [constructor|].
  destruct (is_dict item) eqn:E; auto.
Qed.

Lemma parse_units_payload_all_dicts payload :
  Forall (fun item => is_dict item = true) (parse_units_payload payload).
Proof.
  destruct payload; try constructor.
  - apply filter_is_dict_all.
  - unfold parse_units_payload.
    destruct (first_list_under wrapper_keys d);
      [apply filter_is_dict_all|constructor].
Qed.


Lemma first_list_under_none d keys :
  forallb (fun k => negb (Spec.holds_list d k)) keys = true ->
  first_list_under keys d = None.
Proof.
  induction keys as [|k keys IH]; simpl; [reflexivity|].
  intros [Hk Hb]%andb_prop. unfold Spec.holds_list in Hk.
  destruct (d !! k) as [[]|]; simpl in Hk; try discriminate; auto.
Qed.

(** C1. For every list [l], the object that holds [l] under the key
    [item_units], under [data], under [units], under [results] or under
    [items] gives the extracted list that the bare list [l] gives; a
    payload of any other shape (a scalar, null, or an object in which none
    of these keys holds a list) gives the empty list.  The function is
    total: no payload makes it raise. *)
Theorem parse_units_payload_shapes :
  (forall l,
     parse_units_payload (PDict {["item_units" := PList l]})
     = parse_units_payload (PList l)
     /\ parse_units_payload (PDict {["data" := PList l]})
        = parse_units_payload (PList l)
     /\ parse_units_payload (PDict {["units" := PList l]})
        = parse_units_payload (PList l)
     /\ parse_units_payload (PDict {["results" := PList l]})
        = parse_units_payload (PList l)
     /\ parse_units_payload (PDict {["items" := PList l]})
        = parse_units_payload (PList l))
  /\ (forall payload,
        match payload with
        | PList _ => False
        | PDict d =>
            forall key,
              key ∈ ["item_units"; "data"; "units"; "results"; "items"] ->
              forall l, d !! key <> Some (PList l)
        | _ => True
        end ->
        parse_units_payload payload = []).
Proof.
  split.
  - intros l. split; [|split; [|split; [|split]]]; vm_compute; reflexivity.
  - intros [] H; try reflexivity; try contradiction.
    unfold parse_units_payload. rewrite first_list_under_none; [reflexivity|].
    apply forallb_forall. intros key Hkey%list_elem_of_In.
    specialize (H key Hkey). unfold Spec.holds_list.
    destruct (_ !! key) as [[]|]; try reflexivity. now destruct (H l).
Qed.

(** C8. Every element of the extracted list is an object: the list is the
    payload's list without its elements that are not objects, in order,
    whether the list is bare or wrapped; so it can be shorter than the
    payload's list, as for the five-element list below, of which one
    element is left. *)
Theorem parse_units_payload_only_dicts :
  (forall payload,
     Forall (fun item => is_dict item = true) (parse_units_payload payload))
  /\ (forall l, parse_units_payload (PList l) = List.filter is_dict l)
  /\ (forall l,
        Forall (fun key =>
                  parse_units_payload (PDict {[key := PList l]})
                  = List.filter is_dict l)
               wrapper_keys)
  /\ parse_units_payload
       (PList [PStr "kg"; PInt 3; PNone; PList []; PDict ∅]) = [PDict ∅].
Proof.
  split; [exact parse_units_payload_all_dicts|].
  split; [reflexivity|].
  split; [|reflexivity].
  intros l. unfold wrapper_keys. repeat constructor; vm_compute; reflexivity.
Qed.



Lemma parse_units_payload_shapes_witness :
  parse_units_payload (PDict {["results" := PList [PInt 7; PDict ∅]]})
  = parse_units_payload (PList [PInt 7; PDict ∅])
  /\ parse_units_payload (PList [PInt 7; PDict ∅]) = [PDict ∅]
  /\ parse_units_payload (PDict {["data" := PStr "none"; "total" := PInt 0]})
     = []
  /\ parse_units_payload PNone = []
  /\ parse_units_payload (PInt 42) = [].
Proof.
  destruct parse_units_payload_shapes as [Hsame Hother].
  split; [apply (Hsame [PInt 7; PDict ∅])|].
  split; [reflexivity|].
  split; [|split; apply Hother; exact I].
  apply Hother. intros key Hkey l.
  repeat (apply elem_of_cons in Hkey as [->|Hkey]; [vm_compute; discriminate|]).
  now apply elem_of_nil in Hkey.
Defined.

End Payload.

(** ** Text *)

Lemma append_cons (x : ascii) (a b : string) :
  String x a ++ b = String x (a ++ b).
Proof. reflexivity. Qed.

Lemma append_nil_l (a : string) : "" ++ a = a.
Proof. reflexivity. Qed.

Lemma append_assoc (a b c : string) : (a ++ b) ++ c = a ++ (b ++ c).
Proof.
  induction a as [|x a IH]; [reflexivity|].
  now rewrite !append_cons, IH.
Qed.

Lemma append_nil_r (a : string) : a ++ "" = a.
Proof.
  induction a as [|x a IH]; [reflexivity|]. now rewrite append_cons, IH.
Qed.

Lemma nonempty_append_char (a b : string) (c : ascii) :
  Text.nonempty (a ++ String c b) = true.
Proof. destruct a; reflexivity. Qed.

(** ** Writing the output file *)

Section Writer.

Variable py_str : pyval -> string.
Implicit Types (u : gmap string pyval) (pn : string).

Lemma dict_to_list_output_row pn u :
  CsvWriter.dict_to_list output_fieldnames (output_row pn u)
  = Ok [PStr pn; default (PStr "") (u !! "unit");
        default (PStr "") (u !! "name"); default (PStr "") (u !! "quantity")].
Proof.
  unfold CsvWriter.dict_to_list, output_row.
  rewrite bool_decide_true.
  - unfold output_fieldnames. simpl. repeat f_equal; by simplify_map_eq.
  - rewrite !dom_insert_L, dom_empty_L. unfold output_fieldnames. simpl.
    set_solver.
Qed.

Lemma write_field_default u key :
  CsvWriter.write_field ";"
    (CsvWriter.field_text py_str (default (PStr "") (u !! key)))
  = Spec.serialized py_str u key.
Proof. unfold Spec.serialized. now destruct (u !! key). Qed.

Lemma writerow_output_row pn u :
  CsvWriter.writerow py_str ";"
    [PStr pn; default (PStr "") (u !! "unit");
     default (PStr "") (u !! "name"); default (PStr "") (u !! "quantity")]
  = Spec.row_line py_str pn u.
Proof.
  unfold CsvWriter.writerow. cbn [map Text.join].
  rewrite !write_field_default. cbn [CsvWriter.field_text].
  unfold Spec.row_line. rewrite ?append_cons, ?append_nil_l.
  rewrite nonempty_append_char. cbn [negb andb].
  repeat (rewrite append_assoc || rewrite append_cons). reflexivity.
Qed.

Lemma writerows_output_rows (prs : list (string * gmap string pyval)) :
  CsvWriter.writerows py_str ";" output_fieldnames
    (map (fun pu => output_row (fst pu) (snd pu)) prs)
  = (Spec.concat_lines
       (map (fun pu => Spec.row_line py_str (fst pu) (snd pu)) prs), None).
Proof.
  induction prs as [|[pn u] prs IH]; [reflexivity|].
  cbn [map CsvWriter.writerows fst snd].
  rewrite dict_to_list_output_row, IH, writerow_output_row. reflexivity.
Qed.

Lemma writeheader_output :
  CsvWriter.writeheader py_str ";" output_fieldnames = Spec.header_line.
Proof. reflexivity. Qed.

Lemma output_text_output_rows (prs : list (string * gmap string pyval)) :
  output_text py_str (map (fun pu => output_row (fst pu) (snd pu)) prs)
  = (Spec.header_line
     ++ Spec.concat_lines
          (map (fun pu => Spec.row_line py_str (fst pu) (snd pu)) prs), None).
Proof.
  unfold output_text. now rewrite writerows_output_rows, writeheader_output.
Qed.


(** [write_output_csv] once the directories are made and the file is
    opened: the text is written, and the call raises what a row raised. *)
Lemma write_output_csv_prepared output_path rows w made :
  prepare_output output_path (fs w) = (None, made) ->
  write_output_csv py_str output_path rows w
  = (match snd (output_text py_str rows) with
     | None => Ok tt
     | Some e => Raise e
     end,
     with_fs (fun _ => write_text output_path
                         (fst (output_text py_str rows)) made) w).
Proof.
  intros H. unfold write_output_csv. rewrite H.
  now destruct (output_text py_str rows) as [text [e|]].
Qed.

(** [write_output_csv] when a directory cannot be made or the file cannot
    be opened: nothing is written. *)
Lemma write_output_csv_refused output_path rows w e made :
  prepare_output output_path (fs w) = (Some e, made) ->
  write_output_csv py_str output_path rows w
  = (Raise e, with_fs (fun _ => made) w).
Proof. intros H. unfold write_output_csv. now rewrite H. Qed.

Lemma prepare_output_pair output_path disk :
  fst (prepare_output output_path disk) = None ->
  prepare_output output_path disk
  = (None, snd (prepare_output output_path disk)).
Proof. destruct (prepare_output output_path disk); simpl. now intros ->. Qed.

Lemma prepare_output_made output_path disk :
  snd (prepare_output output_path disk)
  = snd (mkdir_parents (Pathlib.parent output_path) disk).
Proof.
  unfold prepare_output.
  now destruct (mkdir_parents (Pathlib.parent output_path) disk) as [[e|] made].
Qed.

Lemma write_output_csv_file output_path rows w :
  fst (prepare_output output_path (fs w)) = None ->
  files (fs (snd (write_output_csv py_str output_path rows w)))
    !! Pathlib.path_str output_path
  = Some (fst (output_text py_str rows)).
Proof.
  intros H.
  rewrite (write_output_csv_prepared _ _ _ _ (prepare_output_pair _ _ H)).
  apply lookup_insert_eq.
Qed.





End Writer.


(** ** The output path *)

Section OutputPath.

Import Pathlib.

Lemma parent_root (p : path) : root (parent p) = root p.
Proof. unfold parent. now destruct (parts p). Qed.

(** C6, amended.  A relative [--output] that is not the empty string is
    joined to the parent of the input path: the result has the root of the
    input path, and the parts of its parent followed by the parts of the
    output.  An absolute [--output] is the output path.  Without
    [--output], or with an empty one, the output path is the parent of the
    input path joined with [product_units.csv]. *)
Theorem resolve_output_path_cases (input_file out : string) :
  let input_path := Path input_file in
  (out <> "" -> is_absolute (Path out) = false ->
   resolve_output_path input_path (Some out)
   = joinpath (parent input_path) (Path out)
   /\ root (resolve_output_path input_path (Some out)) = root input_path
   /\ parts (resolve_output_path input_path (Some out))
      = (parts (parent input_path) ++ parts (Path out))%list)
  /\ (is_absolute (Path out) = true ->
      resolve_output_path input_path (Some out) = Path out)
  /\ resolve_output_path input_path None
     = joinpath (parent input_path) (Path "product_units.csv")
  /\ resolve_output_path input_path (Some "")
     = joinpath (parent input_path) (Path "product_units.csv").
Proof.
  intros input_path. split; [|split; [|split]].
  - intros Hne Hrel. destruct out as [|c out]; [congruence|].
    unfold resolve_output_path, joinpath. rewrite !Hrel.
    repeat split. apply parent_root.
  - intros Habs. destruct out as [|c out]; [discriminate|].
    unfold resolve_output_path. now rewrite Habs.
  - reflexivity.
  - reflexivity.
Qed.

Lemma resolve_output_path_cases_witness :
  path_str (resolve_output_path (Path "data/in.csv") (Some "out/units.csv"))
  = "data/out/units.csv"
  /\ path_str (resolve_output_path (Path "data/in.csv") (Some "/tmp/units.csv"))
     = "/tmp/units.csv".
Proof.
  split.
  - destruct (resolve_output_path_cases "data/in.csv" "out/units.csv")
      as [H _].
    destruct H as [-> _]; [discriminate|reflexivity|reflexivity].
  - destruct (resolve_output_path_cases "data/in.csv" "/tmp/units.csv")
      as (_ & H & _).
    rewrite H; reflexivity.
Defined.

(** C6 as stated fails for the relative path [""], which [main] takes for
    no [--output] at all. *)
Lemma resolve_output_path_empty_counterexample :
  is_absolute (Path "") = false
  /\ path_str (resolve_output_path (Path "data/in.csv") (Some ""))
     = "data/product_units.csv"
  /\ path_str (joinpath (parent (Path "data/in.csv")) (Path "")) = "data"
  /\ resolve_output_path (Path "data/in.csv") (Some "")
     <> joinpath (parent (Path "data/in.csv")) (Path "").
Proof. repeat split; try reflexivity. discriminate. Qed.

End OutputPath.

(** ** The driver *)

Section Driver.

Variable Timeout : Type.
Variable sniff : string -> string -> option ascii.
Variable py_str : pyval -> string.
Variable urlopen : nat -> Urllib.request -> Timeout -> Urllib.response.
Variable getenv : string -> option string.

Local Abbreviation main := (main Timeout sniff py_str urlopen getenv).
Local Abbreviation main_try := (main_try Timeout sniff py_str urlopen getenv).
Local Abbreviation fetch_all := (fetch_all Timeout urlopen).
Local Abbreviation responses := (Spec.responses urlopen).

Implicit Types (w : world) (pns errs : list string) (tok pn : string).
Implicit Types (rows : list (gmap string pyval)) (t : Timeout).

Lemma to_output_rows_dicts pn (l : list pyval) :
  Forall (fun item => is_dict item = true) l ->
  to_output_rows pn l = Ok (map (output_row pn) (Spec.dicts l)).
Proof.
  induction 1 as [|item l Hitem _ IH]; [reflexivity|].
  destruct item; try discriminate. simpl. now rewrite IH.
Qed.

Lemma after_requests_cons pn pns tok w :
  Spec.after_requests (pn :: pns) tok w
  = Spec.after_requests pns tok (count_request (units_request pn tok) w).
Proof. reflexivity. Qed.

(** The world after some requests: the requests are counted and listed,
    and nothing else changes. *)
Lemma after_requests_frame pns tok w :
  fs (Spec.after_requests pns tok w) = fs w
  /\ stdout (Spec.after_requests pns tok w) = stdout w
  /\ stderr (Spec.after_requests pns tok w) = stderr w
  /\ requests (Spec.after_requests pns tok w) = requests w + length pns
  /\ opened (Spec.after_requests pns tok w)
     = (opened w ++ map (fun pn => units_request pn tok) pns)%list.
Proof.
  revert w. induction pns as [|pn pns IH]; intros w.
  - cbn. rewrite app_nil_r. repeat split; lia.
  - rewrite after_requests_cons.
    destruct (IH (count_request (units_request pn tok) w))
      as (Hfs & Hout & Herr & Hreq & Hopened).
    rewrite Hfs, Hout, Herr, Hreq, Hopened.
    cbn [count_request fs stdout stderr requests opened length map].
    rewrite <- app_assoc. repeat split; lia.
Qed.

(** The loop, when no fetch ends the run: every product adds its rows or
    its error, in the order of the product numbers. *)
Lemma fetch_all_handled pns tok t rows errs w :
  Forall (fun pr => Spec.handled (snd pr) = true)
         (responses pns tok t (requests w)) ->
  fetch_all pns tok t rows errs w
  = (Ok ((rows
          ++ map (fun pu => output_row (fst pu) (snd pu))
                 (flat_map Spec.units_of (responses pns tok t (requests w))))%list,
         (errs ++ flat_map Spec.errors_of (responses pns tok t (requests w)))%list),
     Spec.after_requests pns tok w).
Proof.
  revert rows errs w.
  induction pns as [|pn pns IH]; intros rows errs w H.
  - simpl. now rewrite !app_nil_r.
  - cbn [Spec.responses] in H. apply Forall_cons in H as [Hpn Hrest].
    cbn [snd] in Hpn.
    cbn [fetch_all fetch_units_for_product Spec.responses flat_map length].
    unfold Spec.units_of at 1, Spec.errors_of at 1. cbn [fst snd].
    rewrite map_app, after_requests_cons.
    destruct (urlopen (requests w) (units_request pn tok) t) as [p| | | |e];
      cbn [units_or_error].
    + rewrite (to_output_rows_dicts pn _ (parse_units_payload_all_dicts p)).
      rewrite (IH _ _ (count_request _ w) Hrest). cbn [requests count_request].
      now rewrite map_map, app_nil_l, !app_assoc.
    + rewrite (IH _ _ (count_request _ w) Hrest). cbn [requests count_request].
      now rewrite app_nil_l, <- !app_assoc.
    + rewrite (IH _ _ (count_request _ w) Hrest). cbn [requests count_request].
      now rewrite app_nil_l, <- !app_assoc.
    + rewrite (IH _ _ (count_request _ w) Hrest). cbn [requests count_request].
      now rewrite app_nil_l, <- !app_assoc.
    + destruct e; try discriminate.
      rewrite (IH _ _ (count_request _ w) Hrest). cbn [requests count_request].
      now rewrite app_nil_l, <- !app_assoc.
Qed.

Lemma eprint_all_stderr (lines : list string) w :
  stderr (eprint_all lines w)
  = (stderr w ++ map (String.append "- ") lines)%list.
Proof.
  revert w. induction lines as [|line lines IH]; intros w; simpl.
  - now rewrite app_nil_r.
  - rewrite IH. simpl. now rewrite <- app_assoc.
Qed.

Lemma eprint_all_fs (lines : list string) w : fs (eprint_all lines w) = fs w.
Proof. revert w. induction lines; intros w; simpl; [|rewrite IHlines]; auto. Qed.

Lemma eprint_all_stdout (lines : list string) w :
  stdout (eprint_all lines w) = stdout w.
Proof. revert w. induction lines; intros w; simpl; [|rewrite IHlines]; auto. Qed.

Lemma eprint_all_requests (lines : list string) w :
  requests (eprint_all lines w) = requests w.
Proof. revert w. induction lines; intros w; simpl; [|rewrite IHlines]; auto. Qed.

Lemma eprint_all_opened (lines : list string) w :
  opened (eprint_all lines w) = opened w.
Proof. revert w. induction lines; intros w; simpl; [|rewrite IHlines]; auto. Qed.




(** A run that reaches the end of [main]: what it returns and leaves. *)
Lemma main_completed (args : arguments Timeout) w tok pns :
  get_token getenv (token args) = Ok tok ->
  read_product_numbers sniff (fs w) (Pathlib.Path (input args)) = Ok pns ->
  pns <> [] ->
  let rs := responses pns tok (timeout args) (requests w) in
  Forall (fun pr => Spec.handled (snd pr) = true) rs ->
  let out := resolve_output_path (Pathlib.Path (input args)) (output args) in
  fst (prepare_output out (fs w)) = None ->
  let errors := flat_map Spec.errors_of rs in
  fst (main args w) = match errors with [] => 0%Z | _ => 2%Z end
  /\ fs (snd (main args w))
     = write_text out (Spec.output_file py_str (flat_map Spec.units_of rs))
         (snd (mkdir_parents (Pathlib.parent out) (fs w)))
  /\ stdout (snd (main args w))
     = (stdout w
        ++ [("Processed products: " ++ Text.str_of_nat (length pns))%string;
            ("Output rows written: "
             ++ Text.str_of_nat (length (flat_map Spec.units_of rs)))%string;
            ("Output file: " ++ Pathlib.path_str out)%string])%list
  /\ stderr (snd (main args w))
     = (stderr w
        ++ match errors with
           | [] => []
           | _ => ("Errors: " ++ Text.str_of_nat (length errors))%string
                  :: map (String.append "- ") errors
           end)%list
  /\ requests (snd (main args w)) = requests w + length pns
  /\ opened (snd (main args w))
     = (opened w ++ map (fun pn => units_request pn tok) pns)%list.
Proof.
  intros Htok Hread Hne rs Hrs out Hopen errors.
  unfold main, main_try. rewrite Htok, Hread.
  destruct pns as [|pn pns']; [congruence|]. cbv beta iota.
  rewrite (fetch_all_handled (pn :: pns') tok (timeout args) [] [] w Hrs).
  fold rs. rewrite !app_nil_l. fold errors. fold out.
  pose proof (after_requests_frame (pn :: pns') tok w)
    as (Hfs & Hout & Herr & Hreq & Hopened).
  revert Hfs Hout Herr Hreq Hopened.
  generalize (Spec.after_requests (pn :: pns') tok w) as w1.
  intros w1 Hfs Hout Herr Hreq Hopened.
  rewrite <- Hfs in Hopen.
  rewrite (write_output_csv_prepared py_str _ _ _ _
             (prepare_output_pair _ _ Hopen)).
  rewrite prepare_output_made, Hfs, output_text_output_rows.
  fold (Spec.output_file py_str (flat_map Spec.units_of rs)).
  rewrite length_map. clearbody rs out.
  destruct errors as [|e errors']; cbv beta iota; cbn [fst snd].
  - unfold print, with_fs; cbn [fs stdout stderr requests opened].
    rewrite Hout, Herr, Hreq, Hopened, app_nil_r, <- !app_assoc.
    split; [|split; [|split; [|split; [|split]]]]; reflexivity.
  - rewrite eprint_all_fs, eprint_all_stdout, eprint_all_stderr,
      eprint_all_requests, eprint_all_opened.
    unfold eprint, print, with_fs; cbn [fs stdout stderr requests opened].
    rewrite Hout, Herr, Hreq, Hopened, <- !app_assoc.
    split; [|split; [|split; [|split; [|split]]]]; reflexivity.
Qed.

(** A run whose fetches are done and whose output file cannot be written:
    [main] prints the exception and returns 1. *)
Lemma main_refused (args : arguments Timeout) w tok pns e :
  get_token getenv (token args) = Ok tok ->
  read_product_numbers sniff (fs w) (Pathlib.Path (input args)) = Ok pns ->
  pns <> [] ->
  let rs := responses pns tok (timeout args) (requests w) in
  Forall (fun pr => Spec.handled (snd pr) = true) rs ->
  let out := resolve_output_path (Pathlib.Path (input args)) (output args) in
  fst (prepare_output out (fs w)) = Some e ->
  fst (main args w) = 1%Z
  /\ fs (snd (main args w)) = snd (mkdir_parents (Pathlib.parent out) (fs w))
  /\ stdout (snd (main args w)) = stdout w
  /\ stderr (snd (main args w))
     = (stderr w ++ [("Error: " ++ exn_str e)%string])%list
  /\ requests (snd (main args w)) = requests w + length pns
  /\ opened (snd (main args w))
     = (opened w ++ map (fun pn => units_request pn tok) pns)%list.
Proof.
  intros Htok Hread Hne rs Hrs out Hopen.
  unfold main, main_try. rewrite Htok, Hread.
  destruct pns as [|pn pns']; [congruence|]. cbv beta iota.
  rewrite (fetch_all_handled (pn :: pns') tok (timeout args) [] [] w Hrs).
  fold rs. rewrite !app_nil_l. fold out.
  pose proof (after_requests_frame (pn :: pns') tok w)
    as (Hfs & Hout & Herr & Hreq & Hopened).
  revert Hfs Hout Herr Hreq Hopened.
  generalize (Spec.after_requests (pn :: pns') tok w) as w1.
  intros w1 Hfs Hout Herr Hreq Hopened.
  rewrite <- Hfs in Hopen.
  assert (Hpair : prepare_output out (fs w1)
                  = (Some e, snd (prepare_output out (fs w1)))).
  { destruct (prepare_output out (fs w1)); simpl in *. now rewrite Hopen. }
  rewrite (write_output_csv_refused py_str _ _ _ _ _ Hpair).
  rewrite prepare_output_made, Hfs.
  unfold eprint, with_fs; cbn [fst snd fs stdout stderr requests opened].
  rewrite Hout, Herr, Hreq, Hopened.
  split; [|split; [|split; [|split; [|split]]]]; reflexivity.
Qed.

End Driver.
(** ** The file system *)













Lemma main_unfold (Timeout : Type) sniff py_str urlopen getenv
    (args : arguments Timeout) (w : world) :
  main Timeout sniff py_str urlopen getenv args w
  = match main_try Timeout sniff py_str urlopen getenv args w with
    | (Ok code, w') => (code, w')
    | (Raise e, w') => (1%Z, eprint ("Error: " ++ exn_str e) w')
    end.
Proof. reflexivity. Qed.

Section Runs.

Variable Timeout : Type.
Variable sniff : string -> string -> option ascii.
Variable py_str : pyval -> string.
Variable urlopen : nat -> Urllib.request -> Timeout -> Urllib.response.
Variable getenv : string -> option string.

Local Abbreviation main := (main Timeout sniff py_str urlopen getenv).
Local Abbreviation fetch_all := (fetch_all Timeout urlopen).
Local Abbreviation responses := (Spec.responses urlopen).

Implicit Types (w : world) (args : arguments Timeout).

(** C5. When the reader finds no product number in the input file, the run
    leaves the file system as it was, so it writes no output file; it
    prints nothing to the standard output and one message to the
    diagnostic stream, and it ends with exit code 1.  With a token at hand
    the message is the one about the missing product numbers. *)
Theorem main_no_product_numbers args w :
  read_product_numbers sniff (fs w) (Pathlib.Path (input args)) = Ok [] ->
  fst (main args w) = 1%Z
  /\ fs (snd (main args w)) = fs w
  /\ stdout (snd (main args w)) = stdout w
  /\ (exists msg, stderr (snd (main args w)) = (stderr w ++ [msg])%list)
  /\ (forall tok,
        get_token getenv (token args) = Ok tok ->
        stderr (snd (main args w))
        = (stderr w ++ ["No product numbers found in input CSV."])%list).
Proof.
  intros Hread. rewrite main_unfold. unfold main_try. rewrite Hread.
  destruct (get_token getenv (token args)) as [tok|e]; cbn.
  - repeat split; eauto.
  - repeat split; eauto. discriminate.
Qed.



End Runs.

Lemma main_no_product_numbers_witness :
  fst (main Z Examples.sniff Examples.py_str Examples.urlopen_404
         Examples.no_env (Examples.args_of "in.csv" None)
         (Examples.start "in.csv" Examples.header_only)) = 1%Z
  /\ fs (snd (main Z Examples.sniff Examples.py_str
                Examples.urlopen_404 Examples.no_env
                (Examples.args_of "in.csv" None)
                (Examples.start "in.csv" Examples.header_only)))
     = Examples.disk "in.csv" Examples.header_only.
Proof.
  destruct (main_no_product_numbers Z Examples.sniff Examples.py_str
              Examples.urlopen_404 Examples.no_env
              (Examples.args_of "in.csv" None)
              (Examples.start "in.csv" Examples.header_only))
    as (Hcode & Hfs & _); [vm_compute; reflexivity|].
  split; assumption.
Defined.





(** ** Reading the product numbers *)

Section Dictionaries.

Context {K V : Type} `{Countable K}.

Lemma dict_of_pairs_lookup_from (pairs : list (K * V)) (d : gmap K V) (k : K) :
  fold_left (fun d kv => <[fst kv := snd kv]> d) pairs d !! k
  = match Spec.last_assoc k pairs with
    | Some v => Some v
    | None => d !! k
    end.
Proof.
  revert d. induction pairs as [|[k' v'] pairs IH]; intros d; [reflexivity|].
  cbn [fold_left Spec.last_assoc fst snd]. rewrite IH.
  destruct (Spec.last_assoc k pairs); [reflexivity|].
  destruct (decide (k' = k)) as [->|Hne].
  - apply lookup_insert_eq.
  - now apply lookup_insert_ne.
Qed.

Lemma dict_of_pairs_lookup (pairs : list (K * V)) (k : K) :
  DictReader.dict_of_pairs pairs !! k = Spec.last_assoc k pairs.
Proof.
  unfold DictReader.dict_of_pairs. rewrite dict_of_pairs_lookup_from.
  destruct (Spec.last_assoc k pairs); [reflexivity|apply lookup_empty].
Qed.

Lemma last_assoc_app (k : K) (a b : list (K * V)) :
  Spec.last_assoc k (a ++ b)
  = match Spec.last_assoc k b with
    | Some v => Some v
    | None => Spec.last_assoc k a
    end.
Proof.
  induction a as [|p a IH]; simpl.
  - now destruct (Spec.last_assoc k b).
  - rewrite IH. now destruct (Spec.last_assoc k b).
Qed.

End Dictionaries.

Section Rows.

Implicit Types (names record : list string) (field : string).

(** The pairs [row_dict] goes through, for the keys that are names. *)
Lemma cells_split names record :
  Spec.cells names record
  = (combine (map Some names) (map DictReader.CStr record)
     ++ map (fun key => (Some key, DictReader.CNone))
            (skipn (length record) names))%list.
Proof.
  revert record. induction names as [|name names IH]; intros record.
  - simpl. now rewrite skipn_nil.
  - destruct record as [|s record]; cbn [Spec.cells map combine length skipn].
    + rewrite (IH []). cbn [map length]. now rewrite combine_nil, skipn_O.
    + rewrite (IH record). reflexivity.
Qed.

Lemma fold_left_none_cells (keys : list string) (d : DictReader.row) :
  fold_left (fun d key => <[Some key := DictReader.CNone]> d) keys d
  = fold_left (fun d kv => <[fst kv := snd kv]> d)
      (map (fun key => (Some key, DictReader.CNone)) keys) d.
Proof.
  revert d. induction keys as [|key keys IH]; intros d; [reflexivity|].
  simpl. apply IH.
Qed.

Lemma row_dict_lookup names record field :
  DictReader.row_dict names record !! Some field
  = Spec.last_assoc (Some field) (Spec.cells names record).
Proof.
  rewrite cells_split, last_assoc_app. unfold DictReader.row_dict.
  destruct (length names <? length record)%nat eqn:Hlong.
  - rewrite lookup_insert_ne by discriminate.
    apply Nat.ltb_lt in Hlong.
    rewrite skipn_all2 by lia. simpl. apply dict_of_pairs_lookup.
  - destruct (length record <? length names)%nat eqn:Hshort.
    + rewrite fold_left_none_cells, dict_of_pairs_lookup_from.
      now rewrite dict_of_pairs_lookup.
    + apply Nat.ltb_ge in Hlong, Hshort.
      rewrite skipn_all2 by lia. simpl. apply dict_of_pairs_lookup.
Qed.

Lemma last_assoc_cells names record field :
  Spec.last_assoc (Some field) (Spec.cells names record)
  = match Spec.last_index field names with
    | Some i =>
        Some (match nth_error record i with
              | Some s => DictReader.CStr s
              | None => DictReader.CNone
              end)
    | None => None
    end.
Proof.
  revert record. induction names as [|name names IH]; intros record.
  - reflexivity.
  - destruct record as [|s record];
      cbn [Spec.cells Spec.last_assoc Spec.last_index fst snd]; rewrite IH;
      destruct (Spec.last_index field names) as [i|].
    + now destruct i.
    + destruct (String.eqb_spec name field) as [->|Hne].
      * now rewrite decide_True.
      * rewrite decide_False; [reflexivity|congruence].
    + reflexivity.
    + destruct (String.eqb_spec name field) as [->|Hne].
      * now rewrite decide_True.
      * rewrite decide_False; [reflexivity|congruence].
Qed.

(** What the reader takes from a row is the value of the column. *)
Lemma get_or_empty_row_dict names record field :
  get_or_empty (DictReader.row_dict names record) field
  = Ok (Spec.cell_of names field record).
Proof.
  unfold get_or_empty, Spec.cell_of.
  rewrite row_dict_lookup, last_assoc_cells.
  destruct (Spec.last_index field names) as [i|]; [|reflexivity].
  destruct (nth_error record i) as [s|] eqn:Hnth.
  - now rewrite (nth_error_nth _ _ _ Hnth).
  - apply nth_error_None in Hnth. now rewrite nth_overflow.
Qed.

Lemma cell_of_nil names field : Spec.cell_of names field [] = "".
Proof.
  unfold Spec.cell_of. destruct (Spec.last_index field names) as [i|];
    [now destruct i|reflexivity].
Qed.

Lemma collect_values_rows names field (rest : Csv.records)
    (data : list (list string)) :
  Spec.to_list rest = Some data ->
  collect_values field (DictReader.rows names rest)
  = Ok (Spec.column_values names field data).
Proof.
  revert data. induction rest as [|record rest IH|e]; intros data Hdata.
  - injection Hdata as <-. reflexivity.
  - cbn [Spec.to_list] in Hdata.
    destruct (Spec.to_list rest) as [data'|]; [|discriminate].
    injection Hdata as <-. specialize (IH data' eq_refl).
    unfold Spec.column_values in *. cbn [map List.filter].
    destruct record as [|s record].
    + cbn [DictReader.rows]. rewrite IH, cell_of_nil. reflexivity.
    + cbn [DictReader.rows collect_values].
      rewrite get_or_empty_row_dict, IH. reflexivity.
  - discriminate.
Qed.

End Rows.

Section Columns.

Implicit Types (names : list string) (candidate field : string).

Lemma last_assoc_normalized names candidate :
  Spec.last_assoc candidate
    (map (fun name => (Text.lower (Text.strip name), name)) names)
  = Spec.last_match (Spec.matches candidate) names.
Proof.
  induction names as [|name names IH]; [reflexivity|].
  cbn [map Spec.last_assoc Spec.last_match fst snd]. rewrite IH.
  destruct (Spec.last_match (Spec.matches candidate) names); [reflexivity|].
  unfold Spec.matches.
  destruct (String.eqb_spec (Text.lower (Text.strip name)) candidate)
    as [->|Hne].
  - now rewrite decide_True.
  - now rewrite decide_False.
Qed.

Lemma normalized_lookup names candidate :
  normalized names !! candidate
  = Spec.last_match (Spec.matches candidate) names.
Proof.
  rewrite <- last_assoc_normalized, <- dict_of_pairs_lookup.
  unfold normalized, DictReader.dict_of_pairs. f_equal.
  generalize (∅ : gmap string string).
  induction names as [|name names IH]; intros d; [reflexivity|].
  simpl. apply IH.
Qed.

Lemma last_match_recognized (p : string -> bool) names :
  existsb p names = true -> exists name, Spec.last_match p names = Some name.
Proof.
  induction names as [|name names IH]; [discriminate|].
  cbn [existsb Spec.last_match]. intros Hex.
  destruct (Spec.last_match p names) as [found|] eqn:Hlast; [eauto|].
  destruct (p name); [eauto|]. destruct (IH Hex) as [? ?]. discriminate.
Qed.

Lemma last_match_unrecognized (p : string -> bool) names :
  existsb p names = false -> Spec.last_match p names = None.
Proof.
  induction names as [|name names IH]; [reflexivity|].
  cbn [existsb Spec.last_match]. intros [Hp Hex]%orb_false_elim.
  now rewrite (IH Hex), Hp.
Qed.

Lemma first_candidate_normalized (cands : list string) names :
  first_candidate cands (normalized names)
  = match find (Spec.recognized names) cands with
    | Some candidate => Spec.last_match (Spec.matches candidate) names
    | None => None
    end.
Proof.
  induction cands as [|candidate cands IH]; [reflexivity|].
  cbn [first_candidate find]. rewrite normalized_lookup.
  unfold Spec.recognized at 1.
  destruct (existsb (Spec.matches candidate) names) eqn:Hex.
  - destruct (last_match_recognized _ _ Hex) as [name ->]. reflexivity.
  - now rewrite (last_match_unrecognized _ _ Hex).
Qed.

(** The field [get_product_number_field] returns is the product-number
    column of the header row. *)
Lemma get_product_number_field_column names :
  get_product_number_field (Some names) = Spec.product_number_column names.
Proof.
  unfold Spec.product_number_column.
  destruct names as [|first names']; [reflexivity|].
  cbn [get_product_number_field]. rewrite first_candidate_normalized.
  destruct (find (Spec.recognized (first :: names')) candidates)
    as [candidate|] eqn:Hfind; [|reflexivity].
  apply find_some in Hfind as [_ Hrec].
  destruct (last_match_recognized _ _ Hrec) as [name ->]. reflexivity.
Qed.

End Columns.

Section Stripping.

Variable p : ascii -> bool.

Lemma lstrip_by_first (s : string) (c : ascii) :
  Spec.first_char (Text.lstrip_by p s) = Some c -> p c = false.
Proof.
  induction s as [|x s IH]; [discriminate|]. cbn [Text.lstrip_by].
  destruct (p x) eqn:Hx; [exact IH|]. cbn. now intros [= <-].
Qed.

Lemma rstrip_by_first (s : string) (c : ascii) :
  Spec.first_char (Text.rstrip_by p s) = Some c -> Spec.first_char s = Some c.
Proof.
  destruct s as [|x s]; [discriminate|]. cbn [Text.rstrip_by].
  destruct (Text.rstrip_by p s); [destruct (p x)|]; [discriminate|easy..].
Qed.

Lemma rstrip_by_last (s : string) (c : ascii) :
  Spec.last_char (Text.rstrip_by p s) = Some c -> p c = false.
Proof.
  induction s as [|x s IH]; [discriminate|]. cbn [Text.rstrip_by].
  destruct (Text.rstrip_by p s) as [|y r].
  - destruct (p x) eqn:Hx; [discriminate|]. cbn. now intros [= <-].
  - exact IH.
Qed.

Lemma strip_by_ends (s : string) :
  (forall c, Spec.first_char (Text.strip_by p s) = Some c -> p c = false)
  /\ (forall c, Spec.last_char (Text.strip_by p s) = Some c -> p c = false).
Proof.
  unfold Text.strip_by. split; intros c Hc.
  - now apply (lstrip_by_first s), rstrip_by_first.
  - now apply (rstrip_by_last (Text.lstrip_by p s)).
Qed.

End Stripping.

Lemma strip_chars_stripped (chars s : string) :
  Spec.stripped_of chars (Text.strip_chars chars s) = true.
Proof.
  unfold Spec.stripped_of, Text.strip_chars.
  destruct (strip_by_ends (fun c => Text.mem_char c chars) s) as [Hfirst Hlast].
  apply andb_true_intro. split; unfold Spec.free_of.
  - destruct (Spec.first_char _) as [c|]; [|reflexivity].
    now rewrite (Hfirst c eq_refl).
  - destruct (Spec.last_char _) as [c|]; [|reflexivity].
    now rewrite (Hlast c eq_refl).
Qed.

Lemma bare_values_stripped (lines : list string) :
  bare_values lines = Spec.stripped_bare_values lines.
Proof.
  unfold Spec.stripped_bare_values, Spec.header_like.
  induction lines as [|line lines IH]; [reflexivity|].
  cbn [bare_values map List.filter]. rewrite IH. reflexivity.
Qed.

Lemma stripped_bare_values_ends (lines : list string) :
  Forall (fun value => Spec.stripped_of ";," value = true
                       /\ Text.nonempty value = true
                       /\ Spec.header_like value = false)
         (Spec.stripped_bare_values lines).
Proof.
  unfold Spec.stripped_bare_values. apply Forall_forall.
  intros value Hin%list_elem_of_In.
  apply filter_In in Hin as [Hin Hkeep].
  apply in_map_iff in Hin as [line [<- _]].
  apply andb_prop in Hkeep as [Hne Hhead].
  repeat split; [apply strip_chars_stripped|exact Hne|].
  now apply negb_true_iff.
Qed.

Section Reader.

Variable sniff : string -> string -> option ascii.

Implicit Types (disk : filesystem) (input_path : Pathlib.path).

Lemma read_product_numbers_open disk input_path text :
  files disk !! Pathlib.path_str input_path = Some text ->
  read_product_numbers sniff disk input_path
  = match structured_values sniff text with
    | Raise e => Raise e
    | Ok (value :: values) => Ok (value :: values)
    | Ok [] => Ok (bare_values (Text.file_lines text))
    end.
Proof.
  intros Hfile. unfold read_product_numbers, path_exists, is_file, open_read.
  rewrite Hfile. rewrite bool_decide_true by eauto. reflexivity.
Qed.

(** The first pass over a file that the [csv] module reads without an
    error, and whose product-number column has a name. *)
Lemma structured_values_column text names data field :
  Spec.parsed sniff text = Some (names :: data) ->
  Spec.product_number_column names = Some field ->
  field <> "" ->
  structured_values sniff text = Ok (Spec.column_values names field data).
Proof.
  unfold Spec.parsed, structured_values. intros Hparsed Hcolumn Hfield.
  destruct (Csv.reader_of _ _) as [|names' rest|e]; try discriminate.
  cbn [Spec.to_list] in Hparsed.
  destruct (Spec.to_list rest) as [data'|] eqn:Hrest; [|discriminate].
  injection Hparsed as -> ->. cbn [DictReader.fieldnames].
  destruct names as [|first names']; [discriminate|].
  rewrite get_product_number_field_column, Hcolumn.
  destruct field as [|c field]; [congruence|].
  now apply collect_values_rows.
Qed.

(** C3, amended.  The [csv] module reads the file without an error: a
    header row, then data rows.  The product-number column of the header
    row (the last column that matches the first matched candidate, else
    the first column) has a name that is not empty, and at least one data
    row has a value in it that is not empty once trimmed.  Then the reader
    returns the trimmed values of that column that are not empty, in row
    order. *)
Theorem read_product_numbers_column disk input_path text names data field :
  files disk !! Pathlib.path_str input_path = Some text ->
  Spec.parsed sniff text = Some (names :: data) ->
  Spec.product_number_column names = Some field ->
  field <> "" ->
  Spec.column_values names field data <> [] ->
  read_product_numbers sniff disk input_path
  = Ok (Spec.column_values names field data).
Proof.
  intros Hfile Hparsed Hcolumn Hfield Hvalues.
  rewrite (read_product_numbers_open _ _ _ Hfile).
  rewrite (structured_values_column _ _ _ _ Hparsed Hcolumn Hfield).
  now destruct (Spec.column_values names field data).
Qed.

(** A file that starts with an empty line has no field names: the first
    pass gives no value, whatever the sniffer answers. *)
Lemma structured_values_blank_line (text : string) :
  structured_values sniff (String Csv.LF text) = Ok [].
Proof. reflexivity. Qed.

(** C4, amended.  When the first pass over the file gives no value, the
    reader returns, in file order, what is left of each line once it is
    trimmed and its leading and trailing [;] and [,] are stripped, for the
    lines where this is not empty and does not start with [product] in any
    case.  No returned value starts or ends with [;] or [,]. *)
Theorem read_product_numbers_bare_lines disk input_path text :
  files disk !! Pathlib.path_str input_path = Some text ->
  structured_values sniff text = Ok [] ->
  read_product_numbers sniff disk input_path
  = Ok (Spec.stripped_bare_values (Text.file_lines text))
  /\ Forall (fun value => Spec.stripped_of ";," value = true
                          /\ Text.nonempty value = true
                          /\ Spec.header_like value = false)
            (Spec.stripped_bare_values (Text.file_lines text)).
Proof.
  intros Hfile Hnone. split; [|apply stripped_bare_values_ends].
  rewrite (read_product_numbers_open _ _ _ Hfile), Hnone.
  now rewrite bare_values_stripped.
Qed.

End Reader.

Lemma read_product_numbers_column_witness :
  read_product_numbers Examples.sniff
    (Examples.disk "in.csv" Examples.two_numbers) (Pathlib.Path "in.csv")
  = Ok ["A1"; "A2"].
Proof.
  apply (read_product_numbers_column Examples.sniff
           (Examples.disk "in.csv" Examples.two_numbers) (Pathlib.Path "in.csv")
           Examples.two_numbers ["product_number"] [["A1"]; ["A2"]]
           "product_number");
    try (vm_compute; reflexivity); discriminate.
Defined.

(** C3 as stated fails when no data row has a value in the product-number
    column: the header row is [sku;name], the column [sku] is recognized,
    the only data row has no value in it, and the reader returns what the
    second pass finds in the lines, the header line among them. *)
Lemma read_product_numbers_empty_column_counterexample :
  Spec.parsed Examples.sniff Examples.empty_column
  = Some [["sku"; "name"]; [""; "widget"]]
  /\ Spec.product_number_column ["sku"; "name"] = Some "sku"
  /\ Spec.column_values ["sku"; "name"] "sku" [[""; "widget"]] = []
  /\ read_product_numbers Examples.sniff
       (Examples.disk "in.csv" Examples.empty_column) (Pathlib.Path "in.csv")
     = Ok ["sku;name"; "widget"].
Proof. split; [|split; [|split]]; vm_compute; reflexivity. Qed.

Lemma read_product_numbers_bare_lines_witness :
  read_product_numbers Examples.sniff
    (Examples.disk "in.csv" Examples.bare_lines) (Pathlib.Path "in.csv")
  = Ok ["A1"; "A2"].
Proof.
  apply (read_product_numbers_bare_lines Examples.sniff
           (Examples.disk "in.csv" Examples.bare_lines) (Pathlib.Path "in.csv")
           Examples.bare_lines);
    vm_compute; reflexivity.
Defined.

(** C4 as stated fails on a line that holds delimiter characters and
    nothing else: the line [;;] is not empty once trimmed and does not look
    like a header, so the claim returns it, stripped to the empty string;
    the reader passes it over. *)
Lemma read_product_numbers_delimiter_line_counterexample :
  structured_values Examples.sniff Examples.bare_lines = Ok []
  /\ read_product_numbers Examples.sniff
       (Examples.disk "in.csv" Examples.bare_lines) (Pathlib.Path "in.csv")
     = Ok ["A1"; "A2"]
  /\ Spec.claimed_bare_values (Text.file_lines Examples.bare_lines)
     = ["A1"; ""; "A2"].
Proof. split; [|split]; vm_compute; reflexivity. Qed.

(** * Further properties *)

(** ** The token *)

Section Token.

Variable getenv : string -> option string.

(** X1. A token that [get_token] returns has no white space at its ends,
    whether it comes from the flag or from the environment. *)
Theorem get_token_trimmed (arg_token : option string) (tok : string) :
  get_token getenv arg_token = Ok tok ->
  Notions.ends_clear Text.isspace tok = true.
Proof.
  unfold get_token. intros Htok.
  assert (Hstrip : forall t, Notions.ends_clear Text.isspace (Text.strip t) = true).
  { intros t. unfold Notions.ends_clear, Text.strip.
    destruct (strip_by_ends Text.isspace t) as [Hfirst Hlast].
    apply andb_true_intro. split.
    - destruct (Spec.first_char _) as [c|]; [|reflexivity].
      now rewrite (Hfirst c eq_refl).
    - destruct (Spec.last_char _) as [c|]; [|reflexivity].
      now rewrite (Hlast c eq_refl). }
  destruct arg_token as [[|c t]|];
    try destruct (getenv "RACKBEAT_BEARER_TOKEN") as [[|c' t']|];
    try discriminate; injection Htok as <-; apply Hstrip.
Qed.

(** X2. A flag that is not empty wins over the environment; without a
    flag, or with an empty one, the variable of the environment is taken. *)
Theorem get_token_precedence (flag env_token : string) :
  flag <> "" ->
  get_token getenv (Some flag) = Ok (Text.strip flag)
  /\ (getenv "RACKBEAT_BEARER_TOKEN" = Some env_token -> env_token <> "" ->
      get_token getenv None = Ok (Text.strip env_token)
      /\ get_token getenv (Some "") = Ok (Text.strip env_token)).
Proof.
  intros Hflag. unfold get_token. split.
  - now destruct flag.
  - intros -> Henv. now destruct env_token.
Qed.

End Token.

Lemma get_token_trimmed_witness :
  Notions.ends_clear Text.isspace "secret" = true.
Proof.
  apply (get_token_trimmed Examples.no_env (Some "  secret ") "secret").
  reflexivity.
Defined.

Lemma get_token_precedence_witness :
  get_token (fun _ => Some "from-env") (Some " from-flag ") = Ok "from-flag"
  /\ get_token (fun _ => Some "from-env") None = Ok "from-env".
Proof.
  destruct (get_token_precedence (fun _ => Some "from-env") " from-flag "
              "from-env") as [Hflag Henv]; [discriminate|].
  destruct Henv as [Hnone _]; [reflexivity|discriminate|].
  split; [exact Hflag|exact Hnone].
Defined.

(** ** Runs of [main] *)

Section MoreRuns.

Variable Timeout : Type.
Variable sniff : string -> string -> option ascii.
Variable py_str : pyval -> string.
Variable urlopen : nat -> Urllib.request -> Timeout -> Urllib.response.
Variable getenv : string -> option string.

Local Abbreviation run := (main Timeout sniff py_str urlopen getenv).
Local Abbreviation attempt := (main_try Timeout sniff py_str urlopen getenv).
Local Abbreviation loop := (fetch_all Timeout urlopen).
Local Abbreviation answers := (Spec.responses urlopen).

Implicit Types (w : world) (args : arguments Timeout) (pns errs : list string).
Implicit Types (rows : list (gmap string pyval)) (t : Timeout) (tok : string).





(** X5. Without a token, neither from the flag nor from the environment
    (each is missing or empty), the run ends with exit code 1 before it
    reads the input file or opens a request: only the message about the
    token is printed, to the diagnostic stream. *)
Theorem main_missing_token args w :
  Notions.blank (token args) = true ->
  Notions.blank (getenv "RACKBEAT_BEARER_TOKEN") = true ->
  run args w
  = (1%Z,
     eprint
       "Error: Bearer token is required via --token or RACKBEAT_BEARER_TOKEN."
       w).
Proof.
  intros Hflag Henv. rewrite main_unfold. unfold main_try, get_token.
  destruct (token args) as [[|c t]|]; try discriminate;
    destruct (getenv "RACKBEAT_BEARER_TOKEN") as [[|c' t']|];
    try discriminate; reflexivity.
Qed.

(** X6. With a token, and an input path at which there is neither a file
    nor a directory, the run ends with exit code 1: it opens no request,
    writes no file and prints one message, which names the path. *)
Theorem main_missing_input args w tok :
  get_token getenv (token args) = Ok tok ->
  path_exists (fs w) (Pathlib.Path (input args)) = false ->
  run args w
  = (1%Z,
     eprint ("Error: Input file does not exist: "
             ++ Pathlib.path_str (Pathlib.Path (input args))) w).
Proof.
  intros Htok Hmissing. rewrite main_unfold. unfold main_try.
  rewrite Htok. unfold read_product_numbers. now rewrite Hmissing.
Qed.

(** The loop over a list of product numbers whose first part is handled. *)
Lemma fetch_all_app_handled pns pns' tok t rows errs w :
  Forall (fun pr => Spec.handled (snd pr) = true)
         (answers pns tok t (requests w)) ->
  loop (pns ++ pns') tok t rows errs w
  = loop pns' tok t
      (rows ++ map (fun pu => output_row (fst pu) (snd pu))
                   (flat_map Spec.units_of (answers pns tok t (requests w))))%list
      (errs ++ flat_map Spec.errors_of (answers pns tok t (requests w)))%list
      (Spec.after_requests pns tok w).
Proof.
  revert rows errs w. induction pns as [|pn pns IH]; intros rows errs w H.
  - cbn. now rewrite !app_nil_r.
  - cbn [Spec.responses] in H. apply Forall_cons in H as [Hpn Hrest].
    cbn [snd] in Hpn.
    cbn [app fetch_all fetch_units_for_product Spec.responses flat_map length].
    unfold Spec.units_of at 1, Spec.errors_of at 1. cbn [fst snd].
    rewrite map_app, after_requests_cons.
    destruct (urlopen (requests w) (units_request pn tok) t) as [p| | | |e];
      cbn [units_or_error].
    + rewrite (to_output_rows_dicts pn _ (parse_units_payload_all_dicts p)).
      rewrite (IH _ _ (count_request _ w) Hrest). cbn [requests count_request].
      now rewrite map_map, app_nil_l, !app_assoc.
    + rewrite (IH _ _ (count_request _ w) Hrest). cbn [requests count_request].
      now rewrite app_nil_l, <- !app_assoc.
    + rewrite (IH _ _ (count_request _ w) Hrest). cbn [requests count_request].
      now rewrite app_nil_l, <- !app_assoc.
    + rewrite (IH _ _ (count_request _ w) Hrest). cbn [requests count_request].
      now rewrite app_nil_l, <- !app_assoc.
    + destruct e; try discriminate.
      rewrite (IH _ _ (count_request _ w) Hrest). cbn [requests count_request].
      now rewrite app_nil_l, <- !app_assoc.
Qed.

(** X7. The products before [product_number] are fetched without an
    exception that the loop does not catch, and the fetch of
    [product_number] raises one.  Then the run stops there: it ends with
    exit code 1, leaves the file system as it was (no output file, also
    for the products fetched before), has opened one request for each
    product up to this one and none for the later ones, and prints the
    exception, and nothing else, to the diagnostic stream. *)
Theorem main_stops_at_uncaught args w tok (before after : list string)
    (product_number : string) (e : exn) :
  get_token getenv (token args) = Ok tok ->
  read_product_numbers sniff (fs w) (Pathlib.Path (input args))
  = Ok (before ++ product_number :: after)%list ->
  Forall (fun pr => Spec.handled (snd pr) = true)
         (answers before tok (timeout args) (requests w)) ->
  urlopen (requests w + length before) (units_request product_number tok)
          (timeout args) = Urllib.Unhandled e ->
  Notions.uncaught e = true ->
  fst (run args w) = 1%Z
  /\ fs (snd (run args w)) = fs w
  /\ requests (snd (run args w)) = (requests w + length before + 1)%nat
  /\ stdout (snd (run args w)) = stdout w
  /\ stderr (snd (run args w))
     = (stderr w ++ [("Error: " ++ exn_str e)%string])%list.
Proof.
  intros Htok Hread Hbefore Hfetch Huncaught.
  rewrite main_unfold. unfold main_try. rewrite Htok, Hread.
  assert (Hloop : loop (before ++ product_number :: after) tok (timeout args)
                    [] [] w
                  = (Raise e,
                     count_request (units_request product_number tok)
                       (Spec.after_requests before tok w))).
  { rewrite (fetch_all_app_handled _ _ _ _ _ _ _ Hbefore).
    cbn [fetch_all fetch_units_for_product].
    rewrite (proj1 (proj2 (proj2 (proj2 (after_requests_frame before tok w))))),
      Hfetch.
    cbn [units_or_error].
    now destruct e. }
  destruct (before ++ product_number :: after)%list as [|pn pns] eqn:Hpns;
    [now destruct before|].
  rewrite Hloop. cbn [fst snd eprint fs stdout stderr requests count_request].
  destruct (after_requests_frame before tok w)
    as (Hfs & Hout & Herr & Hreq & _).
  rewrite Hfs, Hout, Herr, Hreq.
  split; [|split; [|split; [|split]]]; try reflexivity. lia.
Qed.

(** X8. In a run with at least one product number in which no fetch raises
    an exception that the loop does not catch, the requests opened are the
    requests for the product numbers of the input, one for each, in the
    order of the input, repeated product numbers included; so their number
    is the number of product numbers.  This holds whether or not the
    output file can be written afterwards. *)
Theorem main_requests_in_order args w tok (pns : list string) :
  get_token getenv (token args) = Ok tok ->
  read_product_numbers sniff (fs w) (Pathlib.Path (input args)) = Ok pns ->
  pns <> [] ->
  Forall (fun pr => Spec.handled (snd pr) = true)
         (answers pns tok (timeout args) (requests w)) ->
  opened (snd (run args w))
  = (opened w ++ map (fun pn => units_request pn tok) pns)%list
  /\ requests (snd (run args w)) = (requests w + length pns)%nat.
Proof.
  intros Htok Hread Hne Hrs.
  destruct (fst (prepare_output
                   (resolve_output_path (Pathlib.Path (input args))
                                        (output args))
                   (fs w))) as [e|] eqn:Hopen.
  - destruct (main_refused Timeout sniff py_str urlopen getenv args w tok pns
                e Htok Hread Hne Hrs Hopen)
      as (_ & _ & _ & _ & Hreq & Hopened).
    now split.
  - destruct (main_completed Timeout sniff py_str urlopen getenv args w tok
                pns Htok Hread Hne Hrs Hopen)
      as (_ & _ & _ & _ & Hreq & Hopened).
    now split.
Qed.


End MoreRuns.

(** ** More on the reader *)

Section MoreReader.

Variable sniff : string -> string -> option ascii.

Implicit Types (disk : filesystem) (input_path : Pathlib.path).
Implicit Types (names : list string) (text field : string).

Lemma strip_ends_clear (s : string) :
  Notions.ends_clear Text.isspace (Text.strip s) = true.
Proof.
  unfold Notions.ends_clear, Text.strip.
  destruct (strip_by_ends Text.isspace s) as [Hfirst Hlast].
  apply andb_true_intro. split.
  - destruct (Spec.first_char _) as [c|]; [|reflexivity].
    now rewrite (Hfirst c eq_refl).
  - destruct (Spec.last_char _) as [c|]; [|reflexivity].
    now rewrite (Hlast c eq_refl).
Qed.

Lemma collect_values_kept field (it : iterator DictReader.row)
    (values : list string) :
  collect_values field it = Ok values ->
  Forall (fun value => Text.nonempty value = true
                       /\ Notions.ends_clear Text.isspace value = true)
         values.
Proof.
  revert values. induction it as [|r rest IH|e]; intros values Hvalues.
  - injection Hvalues as <-. constructor.
  - cbn [collect_values] in Hvalues.
    destruct (get_or_empty r field) as [s|e]; [|discriminate].
    destruct (collect_values field rest) as [values'|e]; [|discriminate].
    injection Hvalues as <-. specialize (IH values' eq_refl).
    destruct (Text.nonempty (Text.strip s)) eqn:Hne; [|exact IH].
    constructor; [|exact IH]. split; [exact Hne|apply strip_ends_clear].
  - discriminate.
Qed.

Lemma structured_values_kept text (values : list string) :
  structured_values sniff text = Ok values ->
  Forall (fun value => Text.nonempty value = true
                       /\ Notions.ends_clear Text.isspace value = true)
         values.
Proof.
  unfold structured_values.
  destruct (DictReader.fieldnames _) as [[[[|name names]|] rest]|e];
    try discriminate; try (intros [= <-]; constructor).
  destruct (get_product_number_field _) as [[|c field]|]; try discriminate.
  apply collect_values_kept.
Qed.

(** X10. No product number that the reader returns is empty, from
    whichever of its two passes it comes. *)
Theorem read_product_numbers_nonempty disk input_path (values : list string) :
  read_product_numbers sniff disk input_path = Ok values ->
  Forall (fun value => Text.nonempty value = true) values.
Proof.
  unfold read_product_numbers.
  destruct (path_exists disk input_path); [|discriminate]. cbn [negb].
  destruct (open_read disk input_path) as [text|e]; [|discriminate].
  destruct (structured_values sniff text) as [[|value values']|e] eqn:Hs;
    try discriminate; intros [= <-].
  - rewrite bare_values_stripped.
    eapply List.Forall_impl; [|apply stripped_bare_values_ends].
    now intros v (_ & H & _).
  - eapply List.Forall_impl; [|apply (structured_values_kept _ _ Hs)].
    now intros v [H _].
Qed.

(** X11. When the first pass finds values, they are what the reader
    returns, and none of them has white space at its ends. *)
Theorem read_product_numbers_structured_trimmed disk input_path text
    (value : string) (values : list string) :
  files disk !! Pathlib.path_str input_path = Some text ->
  structured_values sniff text = Ok (value :: values) ->
  read_product_numbers sniff disk input_path = Ok (value :: values)
  /\ Forall (fun v => Notions.ends_clear Text.isspace v = true)
            (value :: values).
Proof.
  intros Hfile Hs. split.
  - now rewrite (read_product_numbers_open _ _ _ _ Hfile), Hs.
  - eapply List.Forall_impl; [|apply (structured_values_kept _ _ Hs)].
    now intros v [_ H].
Qed.

(** X12. A file that starts with an empty line is read line by line,
    whatever the sniffer answers and whatever follows: a header row after
    the empty line is not taken for one. *)
Theorem read_product_numbers_leading_empty_line disk input_path text :
  files disk !! Pathlib.path_str input_path = Some (String Csv.LF text) ->
  read_product_numbers sniff disk input_path
  = Ok (Spec.stripped_bare_values (Text.file_lines (String Csv.LF text))).
Proof.
  intros Hfile.
  rewrite (read_product_numbers_open _ _ _ _ Hfile).
  now rewrite structured_values_blank_line, bare_values_stripped.
Qed.

(** X13. When the header row matches no candidate and its first column has
    no name, the reader raises [ValueError]: it does not go on to the
    second pass. *)
Theorem read_product_numbers_unnamed_column disk input_path text names
    (rest : Csv.records) :
  files disk !! Pathlib.path_str input_path = Some text ->
  Csv.reader_of (detect_delimiter sniff (Text.take 4096 text))
                (Text.file_lines text)
  = Yield ("" :: names) rest ->
  find (Spec.recognized ("" :: names)) candidates = None ->
  read_product_numbers sniff disk input_path
  = Raise (ValueError
      "Unable to determine product number column in input CSV.").
Proof.
  intros Hfile Hreader Hnone.
  rewrite (read_product_numbers_open _ _ _ _ Hfile).
  unfold structured_values. rewrite Hreader. cbn [DictReader.fieldnames].
  rewrite get_product_number_field_column.
  unfold Spec.product_number_column. now rewrite Hnone.
Qed.

End MoreReader.

(** ** More on the choice of the column *)

Section MoreColumns.

Implicit Types (names : list string) (field : string).

Lemma last_match_in (p : string -> bool) names field :
  Spec.last_match p names = Some field -> In field names /\ p field = true.
Proof.
  induction names as [|name names IH]; [discriminate|].
  cbn [Spec.last_match].
  destruct (Spec.last_match p names) as [found|].
  - intros [= <-]. destruct (IH eq_refl) as [Hin Hp]. split; [now right|exact Hp].
  - destruct (p name) eqn:Hp; [|discriminate]. intros [= <-].
    split; [now left|exact Hp].
Qed.

(** X14. For a header row that is not empty, [get_product_number_field]
    returns one of its column names, as it is written in the file; this
    name either matches a candidate or is the first one. *)
Theorem get_product_number_field_member names :
  names <> [] ->
  exists field,
    get_product_number_field (Some names) = Some field
    /\ In field names
    /\ (existsb (fun candidate => Spec.matches candidate field) candidates
        = true
        \/ head names = Some field).
Proof.
  intros Hne. rewrite get_product_number_field_column.
  unfold Spec.product_number_column.
  destruct (find (Spec.recognized names) candidates) as [candidate|] eqn:Hfind.
  - apply find_some in Hfind as [Hin Hrec].
    destruct (last_match_recognized _ _ Hrec) as [field Hfield].
    destruct (last_match_in _ _ _ Hfield) as [Hmem Hmatch].
    exists field. split; [exact Hfield|]. split; [exact Hmem|]. left.
    apply existsb_exists. now exists candidate.
  - destruct names as [|first names']; [congruence|].
    exists first. split; [reflexivity|]. split; [now left|now right].
Qed.

(** X15. The order of the candidates decides, not the order of the
    columns: when a column matches [product_number], the first candidate,
    the field is the last such column, whatever other candidates the
    header row matches and wherever they stand. *)
Theorem get_product_number_field_priority names :
  Spec.recognized names "product_number" = true ->
  get_product_number_field (Some names)
  = Spec.last_match (Spec.matches "product_number") names.
Proof.
  intros Hrec. rewrite get_product_number_field_column.
  unfold Spec.product_number_column, candidates. cbn [find].
  now rewrite Hrec.
Qed.

End MoreColumns.

(** ** More on payloads, rows and requests *)

Lemma list_filter_idem {A : Type} (f : A -> bool) (l : list A) :
  List.filter f (List.filter f l) = List.filter f l.
Proof.
  induction l as [|x l IH]; [reflexivity|]. cbn [List.filter].
  destruct (f x) eqn:Hx; [|exact IH]. cbn [List.filter]. now rewrite Hx, IH.
Qed.

(** X16. Extracting is idempotent: the extracted list, taken as a payload,
    gives itself.  It is never longer than the list it is taken from. *)
Theorem parse_units_payload_idempotent :
  (forall payload,
     parse_units_payload (PList (parse_units_payload payload))
     = parse_units_payload payload)
  /\ (forall l, (length (parse_units_payload (PList l)) <= length l)%nat).
Proof.
  split.
  - intros payload. destruct payload as [| | | | |l|d]; try reflexivity.
    + apply list_filter_idem.
    + unfold parse_units_payload at 2 3.
      destruct (first_list_under wrapper_keys d) as [value|]; [|reflexivity].
      apply list_filter_idem.
  - intros l. apply filter_length_le.
Qed.

Lemma dicts_length (l : list pyval) :
  Forall (fun item => is_dict item = true) l ->
  length (Spec.dicts l) = length l.
Proof.
  induction 1 as [|item l Hitem _ IH]; [reflexivity|].
  destruct item; try discriminate. cbn. now rewrite IH.
Qed.

Lemma output_row_keys (pn : string) (u : gmap string pyval) :
  dom (output_row pn u) = list_to_set output_fieldnames
  /\ output_row pn u !! "product_number" = Some (PStr pn).
Proof.
  unfold output_row, output_fieldnames. split.
  - rewrite !dom_insert_L, dom_empty_L. cbn. set_solver.
  - by simplify_map_eq.
Qed.

(** X17. The units extracted from a payload always become rows:
    [to_output_rows] does not raise on them, gives one row for each unit,
    and each row has the four keys of the output and holds the product
    number. *)
Theorem to_output_rows_of_payload (product_number : string) (payload : pyval) :
  exists rows,
    to_output_rows product_number (parse_units_payload payload) = Ok rows
    /\ length rows = length (parse_units_payload payload)
    /\ Forall (fun r : gmap string pyval =>
                 dom r = list_to_set output_fieldnames
                 /\ r !! "product_number" = Some (PStr product_number))
              rows.
Proof.
  pose proof (parse_units_payload_all_dicts payload) as Hdicts.
  exists (map (output_row product_number)
              (Spec.dicts (parse_units_payload payload))).
  split; [now apply to_output_rows_dicts|].
  split; [now rewrite length_map, dicts_length|].
  apply List.Forall_forall. intros r [u [<- _]]%in_map_iff.
  apply output_row_keys.
Qed.

(** X18. [to_output_rows] itself raises [AttributeError] as soon as one of
    the units is not an object, and gives no row then, not even for the
    objects before it. *)
Theorem to_output_rows_not_object (product_number : string)
    (units : list pyval) :
  forallb is_dict units = false ->
  exists msg,
    to_output_rows product_number units = Raise (AttributeError msg).
Proof.
  induction units as [|item units IH]; [discriminate|].
  cbn [forallb]. intros H.
  destruct item; cbn [is_dict andb] in H; try (eexists; reflexivity).
  destruct (IH H) as [msg Hmsg]. exists msg. cbn [to_output_rows].
  now rewrite Hmsg.
Qed.

Lemma to_output_rows_not_object_witness :
  to_output_rows "A1" [PDict Examples.piece; PStr "box"]
  = Raise (AttributeError "'str' object has no attribute 'get'").
Proof.
  destruct (to_output_rows_not_object "A1" [PDict Examples.piece; PStr "box"])
    as [msg Hmsg]; [reflexivity|].
  reflexivity.
Defined.

Section MoreFetch.

Variable Timeout : Type.
Variable urlopen : nat -> Urllib.request -> Timeout -> Urllib.response.

(** X19. When the request fails with an HTTP status, a network error or
    invalid JSON, [fetch_units_for_product] raises a [RuntimeError] whose
    text holds the product number between quotes; the request is counted
    and nothing else in the world changes. *)
Theorem fetch_units_for_product_names_product (product_number tok : string)
    (t : Timeout) (w : world) :
  Notions.converted
    (urlopen (requests w) (units_request product_number tok) t) = true ->
  (exists before after,
     fst (fetch_units_for_product Timeout urlopen product_number tok t w)
     = Raise (RuntimeError
                (before ++ "'" ++ product_number ++ "'" ++ after)))
  /\ snd (fetch_units_for_product Timeout urlopen product_number tok t w)
     = count_request (units_request product_number tok) w.
Proof.
  intros H. split; [|reflexivity].
  unfold fetch_units_for_product. cbn [fst].
  destruct (urlopen (requests w) (units_request product_number tok) t)
    as [p|code detail|reason|msg|e]; try discriminate; cbn [units_or_error].
  - exists ("HTTP " ++ Text.str_of_Z code ++ " for product "),
      (" at " ++ build_units_url product_number ++ ". Response: " ++ detail).
    repeat (rewrite append_assoc || rewrite append_cons). reflexivity.
  - exists "Network error for product ", (": " ++ reason).
    repeat (rewrite append_assoc || rewrite append_cons). reflexivity.
  - exists "Invalid JSON for product ", (": " ++ msg).
    repeat (rewrite append_assoc || rewrite append_cons). reflexivity.
Qed.

End MoreFetch.

Lemma string_append_length (a b : string) :
  String.length (a ++ b) = (String.length a + String.length b)%nat.
Proof.
  induction a as [|x a IH]; [reflexivity|].
  rewrite append_cons. cbn [String.length]. now rewrite IH.
Qed.

Lemma append_cancel_r (a b s : string) : a ++ s = b ++ s -> a = b.
Proof.
  revert b. induction a as [|x a IH]; intros b H.
  - destruct b as [|y b]; [reflexivity|].
    apply (f_equal String.length) in H.
    rewrite append_nil_l, append_cons in H. cbn [String.length] in H.
    rewrite string_append_length in H. lia.
  - destruct b as [|y b].
    + apply (f_equal String.length) in H.
      rewrite append_nil_l, append_cons in H. cbn [String.length] in H.
      rewrite string_append_length in H. lia.
    + rewrite !append_cons in H. injection H as -> H. f_equal. now apply IH.
Qed.

(** X20. The URL of a product is the base, the product number as it is,
    not escaped, and the fixed query with its comma escaped; so two
    product numbers that differ are fetched from URLs that differ. *)
Theorem build_units_url_injective (a b : string) :
  build_units_url a
  = "https://app.rackbeat.com/api/products/" ++ a
    ++ "/units?fields=unit%2Cname%2Cquantity"
  /\ (a <> b -> build_units_url a <> build_units_url b).
Proof.
  assert (Hurl : forall pn,
             build_units_url pn
             = "https://app.rackbeat.com/api/products/"
               ++ (pn ++ "/units?fields=unit%2Cname%2Cquantity")).
  { intros pn. unfold build_units_url, API_BASE.
    repeat (rewrite append_assoc || rewrite append_cons). reflexivity. }
  split; [apply Hurl|].
  intros Hne Heq. apply Hne. rewrite !Hurl in Heq.
  apply (inj (String.append _)) in Heq. now apply append_cancel_r in Heq.
Qed.

Lemma build_units_url_injective_witness :
  build_units_url "A 1/x"
  = "https://app.rackbeat.com/api/products/A 1/x/units?fields=unit%2Cname%2Cquantity"
  /\ build_units_url "A1" <> build_units_url "A2".
Proof.
  split.
  - apply (build_units_url_injective "A 1/x" "").
  - apply (build_units_url_injective "A1" "A2"). discriminate.
Defined.

(** ** Reading the output file back *)

Section ReadBack.

Import Csv.

Implicit Types (r : reader) (s rest : string) (c : ascii).

Lemma special_false c :
  CsvWriter.special ";" c = false ->
  Ascii.eqb c ";" = false /\ Ascii.eqb c quotechar = false
  /\ Ascii.eqb c CR = false /\ Ascii.eqb c LF = false.
Proof.
  unfold CsvWriter.special. intros H.
  apply orb_false_elim in H as [H Hlf].
  apply orb_false_elim in H as [H Hcr].
  apply orb_false_elim in H as [Hd Hq]. auto.
Qed.

Lemma process_plain_in_field c r :
  CsvWriter.special ";" c = false ->
  state r = IN_FIELD ->
  (field_len r < field_limit)%N ->
  parse_process_char ";" (Ch c) r
  = Ok {| state := IN_FIELD; fields := fields r;
          field := field r ++ String c ""; field_len := field_len r + 1 |}.
Proof.
  intros (Hd & Hq & Hcr & Hlf)%special_false Hstate Hlen.
  unfold parse_process_char. rewrite Hstate.
  unfold is_newline. rewrite Hlf, Hcr, Hd. cbn [orb].
  unfold parse_add_char.
  rewrite (proj2 (N.leb_gt _ _) Hlen). now rewrite Hstate.
Qed.

Lemma feed_plain_in_field s rest r :
  Notions.all_chars (fun c => negb (CsvWriter.special ";" c)) s = true ->
  state r = IN_FIELD ->
  (field_len r + N.of_nat (String.length s) <= field_limit)%N ->
  feed_line ";" (s ++ rest) r
  = feed_line ";" rest
      {| state := IN_FIELD; fields := fields r; field := field r ++ s;
         field_len := field_len r + N.of_nat (String.length s) |}.
Proof.
  revert r. induction s as [|c s IH]; intros r Hplain Hstate Hlen.
  - rewrite append_nil_l, append_nil_r. cbn [String.length N.of_nat].
    rewrite N.add_0_r. destruct r; cbn in *. now subst.
  - cbn [Notions.all_chars] in Hplain.
    apply andb_prop in Hplain as [Hc Hs]. apply negb_true_iff in Hc.
    cbn [String.length] in Hlen.
    rewrite append_cons. cbn [feed_line].
    rewrite (process_plain_in_field c r Hc Hstate) by lia.
    rewrite IH; cbn [state fields field field_len]; [|exact Hs|reflexivity|lia].
    do 2 f_equal.
    + now rewrite append_assoc, append_cons, append_nil_l.
    + cbn [String.length]. lia.
Qed.

(** A field text that is not empty, read at the start of a field. *)
Lemma feed_plain_start c s rest r :
  Notions.all_chars (fun c => negb (CsvWriter.special ";" c)) (String c s)
  = true ->
  state r = START_RECORD \/ state r = START_FIELD ->
  field r = "" -> field_len r = 0%N ->
  (N.of_nat (String.length (String c s)) <= field_limit)%N ->
  feed_line ";" (String c s ++ rest) r
  = feed_line ";" rest
      {| state := IN_FIELD; fields := fields r; field := String c s;
         field_len := N.of_nat (String.length (String c s)) |}.
Proof.
  intros Hplain Hstate Hfield Hzero Hlen.
  cbn [Notions.all_chars] in Hplain.
  apply andb_prop in Hplain as [Hc Hs]. apply negb_true_iff in Hc.
  destruct (special_false c Hc) as (Hd & Hq & Hcr & Hlf).
  cbn [String.length] in Hlen.
  assert (Hstep : parse_process_char ";" (Ch c) r
                  = Ok {| state := IN_FIELD; fields := fields r;
                          field := String c ""; field_len := 1 |}).
  { destruct r as [st fl fd ln]. cbn [state field field_len fields] in *.
    subst fd ln. unfold parse_process_char, start_field, is_newline.
    cbn [state set_state].
    destruct Hstate as [-> | ->]; rewrite Hlf, Hcr; cbn [orb];
      rewrite Hq, Hd; reflexivity. }
  rewrite append_cons. cbn [feed_line]. rewrite Hstep.
  rewrite feed_plain_in_field; cbn [state fields field field_len];
    [|exact Hs|reflexivity|lia].
  do 2 f_equal. cbn [String.length]. lia.
Qed.

(** A field and the delimiter after it. *)
Lemma feed_field_delimiter s rest r :
  Notions.readable s = true ->
  state r = START_RECORD \/ state r = START_FIELD ->
  field r = "" -> field_len r = 0%N ->
  feed_line ";" (s ++ String ";" rest) r
  = feed_line ";" rest
      {| state := START_FIELD; fields := (fields r ++ [s])%list; field := "";
         field_len := 0 |}.
Proof.
  intros [Hplain Hlen%N.leb_le]%andb_prop Hstate Hfield Hzero.
  destruct s as [|c s].
  - rewrite append_nil_l. cbn [feed_line].
    destruct r as [st fl fd ln]. cbn [state field field_len fields] in *.
    subst fd ln. destruct Hstate as [-> | ->]; reflexivity.
  - rewrite (feed_plain_start c s _ r Hplain Hstate Hfield Hzero Hlen).
    cbn [feed_line]. reflexivity.
Qed.

(** The last field of a record and the end of its line. *)
Lemma feed_field_end s r :
  Notions.readable s = true ->
  state r = START_FIELD ->
  field r = "" -> field_len r = 0%N ->
  feed_line ";" (s ++ CsvWriter.lineterminator) r
  = Ok {| state := START_RECORD; fields := (fields r ++ [s])%list; field := "";
          field_len := 0 |}.
Proof.
  intros [Hplain Hlen%N.leb_le]%andb_prop Hstate Hfield Hzero.
  destruct s as [|c s].
  - rewrite append_nil_l.
    destruct r as [st fl fd ln]. cbn [state field field_len fields] in *.
    subst st fd ln. reflexivity.
  - rewrite (feed_plain_start c s _ r Hplain (or_intror Hstate) Hfield Hzero
               Hlen).
    reflexivity.
Qed.

(** The fields of a record after its first one. *)
Lemma feed_fields (fs : list string) (f : string) r :
  Forall (fun s => Notions.readable s = true) (f :: fs) ->
  state r = START_FIELD ->
  field r = "" -> field_len r = 0%N ->
  feed_line ";" (Text.join ";" (f :: fs) ++ CsvWriter.lineterminator) r
  = Ok {| state := START_RECORD; fields := (fields r ++ f :: fs)%list;
          field := ""; field_len := 0 |}.
Proof.
  revert f r. induction fs as [|f' fs IH]; intros f r Hall Hstate Hfield Hzero.
  - apply Forall_cons in Hall as [Hf _]. cbn [Text.join].
    now apply feed_field_end.
  - apply Forall_cons in Hall as [Hf Hall].
    change (Text.join ";" (f :: f' :: fs))
      with (f ++ ";" ++ Text.join ";" (f' :: fs)).
    rewrite !append_assoc, append_cons, append_nil_l.
    rewrite (feed_field_delimiter f _ r Hf (or_intror Hstate) Hfield Hzero).
    rewrite IH; cbn [state fields field field_len]; try reflexivity; [|exact Hall].
    now rewrite <- app_assoc.
Qed.

(** A record of two fields or more, from the start of a line. *)
Lemma feed_record (f f' : string) (fs : list string) :
  Forall (fun s => Notions.readable s = true) (f :: f' :: fs) ->
  feed_line ";" (Text.join ";" (f :: f' :: fs) ++ CsvWriter.lineterminator)
            parse_reset
  = Ok {| state := START_RECORD; fields := f :: f' :: fs; field := "";
          field_len := 0 |}.
Proof.
  intros Hall. apply Forall_cons in Hall as [Hf Hall].
  change (Text.join ";" (f :: f' :: fs))
    with (f ++ ";" ++ Text.join ";" (f' :: fs)).
  rewrite !append_assoc, append_cons, append_nil_l.
  rewrite (feed_field_delimiter f _ parse_reset Hf (or_introl eq_refl)
             eq_refl eq_refl).
  now rewrite feed_fields.
Qed.

Local Abbreviation no_line_end :=
  (Notions.all_chars (fun c => negb (Ascii.eqb c CR || Ascii.eqb c LF))).

Local Abbreviation plain :=
  (Notions.all_chars (fun c => negb (CsvWriter.special ";" c))).

Local Abbreviation line_of :=
  (fun fs : list string => Text.join ";" fs ++ CsvWriter.lineterminator).

Lemma all_chars_append (p : ascii -> bool) (a b : string) :
  Notions.all_chars p (a ++ b)
  = Notions.all_chars p a && Notions.all_chars p b.
Proof.
  induction a as [|x a IH]; [reflexivity|].
  rewrite append_cons. cbn [Notions.all_chars]. rewrite IH.
  now rewrite andb_assoc.
Qed.

Lemma plain_no_line_end s : plain s = true -> no_line_end s = true.
Proof.
  induction s as [|c s IH]; [reflexivity|]. cbn [Notions.all_chars].
  intros [Hc Hs]%andb_prop. rewrite (IH Hs), andb_true_r.
  apply negb_true_iff in Hc.
  destruct (special_false c Hc) as (_ & _ & -> & ->). reflexivity.
Qed.

Lemma join_no_line_end (fs : list string) :
  Forall (fun s => Notions.readable s = true) fs ->
  no_line_end (Text.join ";" fs) = true.
Proof.
  induction 1 as [|f fs Hf Hfs IH]; [reflexivity|].
  apply andb_prop in Hf as [Hf _]. apply plain_no_line_end in Hf.
  destruct fs as [|f' fs]; [exact Hf|].
  change (Text.join ";" (f :: f' :: fs))
    with (f ++ ";" ++ Text.join ";" (f' :: fs)).
  rewrite !all_chars_append, Hf, IH. reflexivity.
Qed.

(** A text without a line end, followed by one, is one line of a file. *)
Lemma lines_from_line s cur rest :
  no_line_end s = true ->
  Text.lines_from cur (s ++ CsvWriter.lineterminator ++ rest)
  = (cur ++ s ++ CsvWriter.lineterminator) :: Text.lines_from "" rest.
Proof.
  revert cur. induction s as [|c s IH]; intros cur Hs.
  - rewrite !append_nil_l. reflexivity.
  - cbn [Notions.all_chars] in Hs. apply andb_prop in Hs as [Hc Hs].
    apply negb_true_iff, orb_false_elim in Hc as [Hcr Hlf].
    rewrite append_cons. cbn [Text.lines_from].
    change "010"%char with LF. change "013"%char with CR.
    rewrite Hlf, Hcr, (IH _ Hs). f_equal.
    now rewrite append_assoc, !append_cons, append_nil_l.
Qed.

Lemma file_lines_of_lines (records : list (list string)) :
  Forall (Forall (fun s => Notions.readable s = true)) records ->
  Text.file_lines (Spec.concat_lines (map line_of records))
  = map line_of records.
Proof.
  unfold Text.file_lines.
  induction 1 as [|fs records Hfs _ IH]; [reflexivity|].
  cbn [map Spec.concat_lines]. rewrite append_assoc.
  rewrite (lines_from_line _ "" _ (join_no_line_end fs Hfs)), IH.
  now rewrite append_nil_l.
Qed.

Lemma read_records_of_lines (records : list (list string)) :
  Forall (fun fs => Forall (fun s => Notions.readable s = true) fs
                    /\ (2 <= length fs)%nat) records ->
  read_records ";" parse_reset (map line_of records) = Notions.yields records.
Proof.
  induction 1 as [|fs records [Hfs Hlen] _ IH]; [reflexivity|].
  destruct fs as [|f [|f' fs]]; cbn [length] in Hlen; try lia.
  cbn [map read_records Notions.yields].
  rewrite (feed_record f f' fs Hfs). cbn [state fields parser_state_eqb].
  now rewrite IH.
Qed.

Lemma write_field_readable s :
  Notions.readable s = true -> CsvWriter.write_field ";" s = s.
Proof.
  intros [Hplain _]%andb_prop. unfold CsvWriter.write_field.
  assert (Hq : CsvWriter.needs_quotes ";" s = false).
  { induction s as [|c s IH]; [reflexivity|].
    cbn [Notions.all_chars] in Hplain.
    apply andb_prop in Hplain as [Hc Hs]. apply negb_true_iff in Hc.
    cbn [CsvWriter.needs_quotes]. now rewrite Hc, (IH Hs). }
  now rewrite Hq.
Qed.

Lemma row_line_readable (py_str : pyval -> string)
    (pu : string * gmap string pyval) :
  Forall (fun s => Notions.readable s = true) (Notions.record_of py_str pu) ->
  Spec.row_line py_str (fst pu) (snd pu)
  = line_of (Notions.record_of py_str pu).
Proof.
  destruct pu as [pn u]. unfold Notions.record_of. cbn [fst snd].
  intros Hall.
  apply Forall_cons in Hall as [Hpn Hall].
  apply Forall_cons in Hall as [Hunit Hall].
  apply Forall_cons in Hall as [Hname Hall].
  apply Forall_cons in Hall as [Hquantity _].
  assert (Hser : forall key,
             Notions.readable (Notions.text_of py_str u key) = true ->
             Spec.serialized py_str u key = Notions.text_of py_str u key).
  { intros key. unfold Spec.serialized, Notions.text_of.
    destruct (u !! key); [apply write_field_readable|reflexivity]. }
  unfold Spec.row_line.
  rewrite (write_field_readable _ Hpn), (Hser _ Hunit), (Hser _ Hname),
    (Hser _ Hquantity).
  cbn [Text.join]. repeat (rewrite append_assoc || rewrite append_cons).
  reflexivity.
Qed.

Lemma output_file_lines (py_str : pyval -> string)
    (prs : list (string * gmap string pyval)) :
  Forall (fun pu => Forall (fun s => Notions.readable s = true)
                           (Notions.record_of py_str pu)) prs ->
  Spec.output_file py_str prs
  = Spec.concat_lines
      (map line_of (output_fieldnames :: map (Notions.record_of py_str) prs)).
Proof.
  intros Hall. unfold Spec.output_file. cbn [map Spec.concat_lines].
  f_equal. induction Hall as [|pu prs Hpu _ IH]; [reflexivity|].
  cbn [map Spec.concat_lines]. now rewrite IH, (row_line_readable _ _ Hpu).
Qed.

Lemma write_output_csv_opened (py_str : pyval -> string)
    (output_path : Pathlib.path) (rows : list (gmap string pyval))
    (w : world) :
  fst (write_output_csv py_str output_path rows w) = Ok tt ->
  fst (prepare_output output_path (fs w)) = None.
Proof.
  unfold write_output_csv.
  now destruct (prepare_output output_path (fs w)) as [[e|] made].
Qed.

(** X21. The output file can be read back: when the product numbers and
    the field texts of the unit records hold no semicolon, no quote
    character and no line end, and are within the field limit of the
    reader, and [write_output_csv] returns without an exception, the [csv]
    reader with the semicolon as delimiter finds in the file written the
    header row and then, for each unit record, in order, its four field
    texts. *)
Theorem write_output_csv_reads_back (py_str : pyval -> string)
    (output_path : Pathlib.path) (prs : list (string * gmap string pyval))
    (w : world) :
  Forall (fun pu => Forall (fun s => Notions.readable s = true)
                           (Notions.record_of py_str pu)) prs ->
  fst (write_output_csv py_str output_path
         (map (fun pu => output_row (fst pu) (snd pu)) prs) w) = Ok tt ->
  exists text,
    files (fs (snd (write_output_csv py_str output_path
                      (map (fun pu => output_row (fst pu) (snd pu)) prs) w)))
      !! Pathlib.path_str output_path = Some text
    /\ reader_of ";" (Text.file_lines text)
       = Notions.yields
           (output_fieldnames :: map (Notions.record_of py_str) prs).
Proof.
  intros Hall Hwritten. exists (Spec.output_file py_str prs). split.
  - rewrite write_output_csv_file
      by exact (write_output_csv_opened _ _ _ _ Hwritten).
    now rewrite output_text_output_rows.
  - assert (Hrecords :
      Forall (fun fs => Forall (fun s => Notions.readable s = true) fs
                        /\ (2 <= length fs)%nat)
             (output_fieldnames :: map (Notions.record_of py_str) prs)).
    { constructor.
      - split; [repeat constructor|cbn; lia].
      - apply List.Forall_forall. intros fs [pu [<- Hin]]%in_map_iff.
        split; [|cbn; lia].
        exact (proj1 (List.Forall_forall _ _) Hall pu Hin). }
    rewrite (output_file_lines py_str prs Hall).
    rewrite file_lines_of_lines.
    + now apply read_records_of_lines.
    + eapply List.Forall_impl; [|exact Hrecords]. now intros fs [H _].
Qed.

End ReadBack.

Lemma write_output_csv_reads_back_witness :
  exists text,
    files (fs (snd (write_output_csv Examples.py_str (Pathlib.Path "out.csv")
                      (map (fun pu => output_row (fst pu) (snd pu))
                           [("A1", Examples.piece); ("A1", Examples.box)])
                      (Examples.start "in.csv" Examples.one_number))))
      !! "out.csv" = Some text
    /\ Csv.reader_of ";" (Text.file_lines text)
       = Notions.yields
           [["product_number"; "unit"; "unitname"; "quantity"];
            ["A1"; "pcs"; "Piece"; "1"]; ["A1"; "box"; "Box"; "12"]].
Proof.
  apply (write_output_csv_reads_back Examples.py_str (Pathlib.Path "out.csv")
           [("A1", Examples.piece); ("A1", Examples.box)]
           (Examples.start "in.csv" Examples.one_number)).
  - repeat (constructor; [repeat (constructor; [vm_compute; reflexivity|])|]);
      constructor.
  - vm_compute; reflexivity.
Defined.

(** ** Sample runs *)


Lemma main_missing_token_witness :
  fst (main Z Examples.sniff Examples.py_str Examples.urlopen_404
         Examples.no_env
         {| token := Some ""; input := "in.csv"; output := None;
            timeout := 30%Z |}
         (Examples.start "in.csv" Examples.two_numbers)) = 1%Z.
Proof.
  rewrite (main_missing_token Z Examples.sniff Examples.py_str
             Examples.urlopen_404 Examples.no_env
             {| token := Some ""; input := "in.csv"; output := None;
                timeout := 30%Z |}
             (Examples.start "in.csv" Examples.two_numbers));
    reflexivity.
Defined.

Lemma main_missing_input_witness :
  stderr (snd (main Z Examples.sniff Examples.py_str Examples.urlopen_404
                 Examples.no_env (Examples.args_of "data/missing.csv" None)
                 (Examples.start "in.csv" Examples.two_numbers)))
  = ["Error: Input file does not exist: data/missing.csv"].
Proof.
  rewrite (main_missing_input Z Examples.sniff Examples.py_str
             Examples.urlopen_404 Examples.no_env
             (Examples.args_of "data/missing.csv" None)
             (Examples.start "in.csv" Examples.two_numbers) "secret");
    vm_compute; reflexivity.
Defined.

Lemma main_stops_at_uncaught_witness :
  fst (main Z Examples.sniff Examples.py_str Samples.urlopen_then_undecodable
         Examples.no_env (Examples.args_of "in.csv" None)
         (Examples.start "in.csv" Examples.two_numbers)) = 1%Z
  /\ fs (snd (main Z Examples.sniff Examples.py_str
                Samples.urlopen_then_undecodable Examples.no_env
                (Examples.args_of "in.csv" None)
                (Examples.start "in.csv" Examples.two_numbers)))
     = Examples.disk "in.csv" Examples.two_numbers
  /\ requests (snd (main Z Examples.sniff Examples.py_str
                      Samples.urlopen_then_undecodable Examples.no_env
                      (Examples.args_of "in.csv" None)
                      (Examples.start "in.csv" Examples.two_numbers)))
     = 2%nat.
Proof.
  destruct (main_stops_at_uncaught Z Examples.sniff Examples.py_str
              Samples.urlopen_then_undecodable Examples.no_env
              (Examples.args_of "in.csv" None)
              (Examples.start "in.csv" Examples.two_numbers)
              "secret" ["A1"] [] "A2"
              (OtherError "UnicodeDecodeError"
                 "'utf-8' codec can't decode byte 0xff in position 0: invalid start byte"))
    as (Hcode & Hfs & Hreq & _).
  - vm_compute; reflexivity.
  - vm_compute; reflexivity.
  - constructor; [vm_compute; reflexivity|constructor].
  - vm_compute; reflexivity.
  - reflexivity.
  - split; [exact Hcode|]. split; [exact Hfs|exact Hreq].
Defined.

Lemma main_requests_in_order_witness :
  opened (snd (Examples.run_404 "in.csv" None Samples.repeated))
  = [units_request "A1" "secret"; units_request "A2" "secret";
     units_request "A1" "secret"]
  /\ requests (snd (Examples.run_404 "in.csv" None Samples.repeated)) = 3%nat.
Proof.
  apply (main_requests_in_order Z Examples.sniff Examples.py_str
           Examples.urlopen_404 Examples.no_env
           (Examples.args_of "in.csv" None)
           (Examples.start "in.csv" Samples.repeated)
           "secret" ["A1"; "A2"; "A1"]);
    try (vm_compute; reflexivity); [discriminate|].
  repeat (constructor; [vm_compute; reflexivity|]). constructor.
Defined.


Lemma read_product_numbers_nonempty_witness :
  Forall (fun value => Text.nonempty value = true) ["A1"; "A2"].
Proof.
  apply (read_product_numbers_nonempty Examples.sniff
           (Examples.disk "in.csv" Examples.two_numbers)
           (Pathlib.Path "in.csv")).
  vm_compute; reflexivity.
Defined.

Lemma read_product_numbers_structured_trimmed_witness :
  read_product_numbers Samples.sniff
    (Examples.disk "in.csv" Samples.three_columns) (Pathlib.Path "in.csv")
  = Ok ["P1"; "P2"].
Proof.
  apply (read_product_numbers_structured_trimmed Samples.sniff
           (Examples.disk "in.csv" Samples.three_columns)
           (Pathlib.Path "in.csv") Samples.three_columns "P1" ["P2"]);
    vm_compute; reflexivity.
Defined.

Lemma read_product_numbers_leading_empty_line_witness :
  read_product_numbers Samples.sniff
    (Examples.disk "in.csv" Samples.late_header) (Pathlib.Path "in.csv")
  = Ok ["sku;name"; "A1;widget"].
Proof.
  rewrite (read_product_numbers_leading_empty_line Samples.sniff
             (Examples.disk "in.csv" Samples.late_header)
             (Pathlib.Path "in.csv")
             ("sku;name" ++ Examples.LF ++ "A1;widget" ++ Examples.LF));
    vm_compute; reflexivity.
Defined.

Lemma read_product_numbers_unnamed_column_witness :
  read_product_numbers Samples.sniff
    (Examples.disk "in.csv" Samples.unnamed_column) (Pathlib.Path "in.csv")
  = Raise (ValueError
      "Unable to determine product number column in input CSV.").
Proof.
  apply (read_product_numbers_unnamed_column Samples.sniff
           (Examples.disk "in.csv" Samples.unnamed_column)
           (Pathlib.Path "in.csv") Samples.unnamed_column ["name"]
           (Yield ["1"; "x"] Stop));
    vm_compute; reflexivity.
Defined.

Lemma get_product_number_field_member_witness :
  exists field,
    get_product_number_field (Some ["id"; "name"]) = Some field
    /\ In field ["id"; "name"]
    /\ (existsb (fun candidate => Spec.matches candidate field) candidates
        = true
        \/ head ["id"; "name"] = Some field).
Proof.
  apply (get_product_number_field_member ["id"; "name"]). discriminate.
Defined.

Lemma get_product_number_field_priority_witness :
  get_product_number_field (Some ["id"; "SKU "; "Product_Number"])
  = Some "Product_Number".
Proof.
  rewrite (get_product_number_field_priority ["id"; "SKU "; "Product_Number"]);
    reflexivity.
Defined.

Lemma fetch_units_for_product_names_product_witness :
  exists before after,
    fst (fetch_units_for_product Z Examples.urlopen_404 "A2" "secret" 30%Z
           (Examples.start "in.csv" Examples.two_numbers))
    = Raise (RuntimeError (before ++ "'" ++ "A2" ++ "'" ++ after)).
Proof.
  apply (fetch_units_for_product_names_product Z Examples.urlopen_404 "A2"
           "secret" 30%Z (Examples.start "in.csv" Examples.two_numbers)).
  vm_compute; reflexivity.
Defined.
